(** * ArtifactoryClient: a shallow embedding of [lib/ArtifactoryClient.js]

    The client is a thin layer over three collaborators: the HTTP
    transport (node-fetch), the local file system (fs, path) and the
    checksum provider (md5-file).  Every method of the class is embedded
    as a computation in a state-and-exception monad whose state records
    the requests issued, the console output and the local files, and whose
    exceptions are the JavaScript errors the method can reject with. *)

From stdpp Require Import base strings list gmap pretty.
From Stdlib Require Import Ascii ZArith.

Local Open Scope Z_scope.
Local Open Scope nat_scope.

(** ** JavaScript strings *)

Module Js.

(** [s[i]]: the character at index [i], [undefined] out of range. *)
Definition index (s : string) (i : Z) : option ascii :=
  if (i <? 0)%Z then None else String.get (Z.to_nat i) s.

Definition length (s : string) : Z := Z.of_nat (String.length s).

(** [s.lastIndexOf(c)] for a one-character needle: [-1] when absent. *)
Fixpoint lastIndexOf_from (c : ascii) (s : string) (i : Z) (found : Z) : Z :=
  match s with
  | EmptyString => found
  | String a s' =>
      lastIndexOf_from c s' (i + 1)%Z (if bool_decide (a = c) then i else found)
  end.

Definition lastIndexOf (s : string) (c : ascii) : Z :=
  lastIndexOf_from c s 0%Z (-1)%Z.

Fixpoint drop (n : nat) (s : string) : string :=
  match n, s with
  | O, _ => s
  | S n', String _ s' => drop n' s'
  | S _, EmptyString => EmptyString
  end.

(** [s.substring(start)]: a negative start counts as 0. *)
Definition substring (s : string) (start : Z) : string :=
  drop (Z.to_nat start) s.

Fixpoint take (n : nat) (s : string) : string :=
  match n, s with
  | S n', String a s' => String a (take n' s')
  | _, _ => EmptyString
  end.

Definition lower (a : ascii) : ascii :=
  let n := nat_of_ascii a in
  if (65 <=? n) && (n <=? 90) then ascii_of_nat (n + 32) else a.

Fixpoint toLowerCase (s : string) : string :=
  match s with
  | EmptyString => EmptyString
  | String a s' => String (lower a) (toLowerCase s')
  end.

(** [!!s.match(/^https?:\/\//i)] *)
Definition is_http_url (s : string) : bool :=
  bool_decide (toLowerCase (take 7 s) = "http://")
  || bool_decide (toLowerCase (take 8 s) = "https://").

(** [s.replace(/\/$/, "")]: drops one trailing slash. *)
Fixpoint strip_trailing_slash (s : string) : string :=
  match s with
  | EmptyString => EmptyString
  | String a s' =>
      if bool_decide (a = "/"%char) && bool_decide (s' = EmptyString)
      then EmptyString
      else String a (strip_trailing_slash s')
  end.

(** Template-literal rendering of a boolean and of [undefined]. *)
Definition show_bool (b : bool) : string := if b then "true" else "false".

Definition show_opt (o : option string) : string := default "undefined" o.

(** Truthiness of a possibly-undefined string. *)
Definition truthy (o : option string) : bool :=
  match o with
  | Some s => negb (bool_decide (s = EmptyString))
  | None => false
  end.

End Js.

(** ** Path semantics

    The source has no helper for this: the same two-line statement
    [if (path[path.length - 1] !== '/') path = path + '/'] opens
    [getFolderInfo], [createFolder], [deleteFolder] and (twice)
    [moveItems].  It is embedded once, under the name the design
    document gives it. *)

Definition ends_with_sep (path : string) : bool :=
  bool_decide (Js.index path (Js.length path - 1) = Some "/"%char).

Definition asDirectory (path : string) : string :=
  if ends_with_sep path then path else path +:+ "/".

(** The last character of the non-empty string [String a s]. *)
Fixpoint last_of (a : ascii) (s : string) : ascii :=
  match s with
  | EmptyString => a
  | String b s' => last_of b s'
  end.

(** Number of separators the path ends with. *)
Fixpoint trailing_seps (s : string) : nat :=
  match s with
  | EmptyString => 0
  | String a s' =>
      let n := trailing_seps s' in
      if bool_decide (a = "/"%char) && bool_decide (n = String.length s')
      then S n else n
  end.

(** [uri.substring(uri.lastIndexOf('/') + 1)] *)
Definition baseName (uri : string) : string :=
  Js.substring uri (Js.lastIndexOf uri "/"%char + 1).

(** ** The world a call runs in *)

Inductive Method := GET | HEAD | PUT | POST | DELETE.

(** What an upload sends as its request body: a read stream on a local
    file, or the (pending) response of a GET on a remote URL. *)
Inductive Body :=
| LocalStream (file : string)
| RemoteStream (remote : string).

Record Request := mkRequest {
  req_method : Method;
  req_url : string;
  req_headers : list (string * string);
  req_body : option Body
}.

Inductive Event :=
| Fetch (r : Request)        (* node-fetch called: the request is on the wire *)
| Log (line : string)        (* console.log *)
| OpenRead (file : string)   (* fs.createReadStream *)
| OpenWrite (file : string). (* fs.createWriteStream *)

(** The part of a folder listing entry the client reads. *)
Record Child := mkChild {
  uri : option string;
  folder : bool
}.

Record Checksums := mkChecksums { md5 : option string }.

(** The part of a FileInfo / FolderInfo document the client reads; a
    missing or null field is [None]. *)
Record Info := mkInfo {
  children : option (list Child);
  checksums : option Checksums
}.

(** A node-fetch response.  [res_json] is what [res.json()] settles to,
    [None] when the body is not a JSON document. *)
Record Response := mkResponse {
  status : nat;
  res_text : string;
  res_json : option Info
}.

(** node-fetch: [res.ok] is [status >= 200 && status < 300]. *)
Definition ok (res : Response) : bool :=
  (200 <=? status res) && (status res <? 300).

Inductive FetchOutcome :=
| Responds (res : Response)
| Fails (reason : string).   (* network failure: the fetch promise rejects *)

(** How writing a body into a write stream ends: the stream emits
    [finish], or [error] having left [partial] in the file ([None] when
    the file could not even be opened). *)
Inductive PipeOutcome :=
| Finished
| Errored (partial : option string) (reason : string).

Inductive exn :=
| Error (message : string)
| ReferenceError (identifier : string)
| TypeError (message : string)
| SyntaxError (message : string)
| FetchError (reason : string)
| StreamError (reason : string).

Inductive Res (A : Type) :=
| Resolved (a : A)
| Rejected (e : exn).
Arguments Resolved {A} a.
Arguments Rejected {A} e.

Record World := mkWorld {
  trace : list Event;            (* oldest first *)
  files : gmap string string;    (* local regular files and their contents *)
  dirs : gset string             (* local directories *)
}.

(** The collaborators.  The server and the streams may depend on
    everything that happened before. *)
Record Env := mkEnv {
  path_resolve : string → string;                          (* Path.resolve *)
  path_dirname : string → string;                          (* Path.dirname *)
  md5_digest : string → string;                            (* md5-file, on contents *)
  respond : list Event → Request → FetchOutcome;
  pipe_outcome : list Event → string → string → PipeOutcome;
  arrival : list Event → list nat   (* order in which pending requests settle *)
}.

Record Client := mkClient {
  base_url : string;
  basicHttpAuth : option string
}.

(** [new ArtifactoryClient(url)] *)
Definition constructor (url : string) : Client :=
  {| base_url := Js.strip_trailing_slash url; basicHttpAuth := None |}.

(** [buffer.toString('base64')] on the bytes of a string (a string is
    taken as its UTF-8 bytes, which is what [new Buffer(str, 'utf8')]
    holds). *)
Module Base64.

Definition alphabet : string :=
  "ABCDEFGHIJKLMNOPQRSTUVWXYZabcdefghijklmnopqrstuvwxyz0123456789+/".

Definition digit (n : nat) : ascii := default "="%char (String.get n alphabet).

Fixpoint encode (s : string) : string :=
  match s with
  | EmptyString => EmptyString
  | String a EmptyString =>
      let x := nat_of_ascii a in
      String (digit (x / 4)) (String (digit (x mod 4 * 16)) "==")
  | String a (String b EmptyString) =>
      let x := nat_of_ascii a in
      let y := nat_of_ascii b in
      String (digit (x / 4))
        (String (digit (x mod 4 * 16 + y / 16))
           (String (digit (y mod 16 * 4)) "="))
  | String a (String b (String c rest)) =>
      let x := nat_of_ascii a in
      let y := nat_of_ascii b in
      let z := nat_of_ascii c in
      String (digit (x / 4))
        (String (digit (x mod 4 * 16 + y / 16))
           (String (digit (y mod 16 * 4 + z / 64))
              (String (digit (z mod 64)) (encode rest))))
  end.

End Base64.

(** [toBase64(str)] *)
Definition toBase64 (str : string) : string := Base64.encode str.

(** [setAuth(user, password)]: the client with its auth field assigned. *)
Definition setAuth (this : Client) (user : string) (password : option string)
  : Client :=
  {| base_url := base_url this;
     basicHttpAuth :=
       if Js.truthy password
       then Some (toBase64 (user +:+ ":" +:+ Js.show_opt password))
       else password |}.

(** ** The monad *)

Definition M (A : Type) : Type := World → Res A * World.

Definition ret {A} (a : A) : M A := λ w, (Resolved a, w).

Definition throw {A} (e : exn) : M A := λ w, (Rejected e, w).

Definition bind {A B} (m : M A) (k : A → M B) : M B :=
  λ w, match m w with
       | (Resolved a, w') => k a w'
       | (Rejected e, w') => (Rejected e, w')
       end.

Declare Scope js_scope.
Delimit Scope js_scope with js.
Notation "x <- c1 ;; c2" := (bind c1 (λ x, c2))
  (at level 100, c1 at next level, right associativity) : js_scope.
Notation "c1 ;; c2" := (bind c1 (λ _, c2))
  (at level 100, right associativity) : js_scope.
Local Open Scope js_scope.

(** [try { m } catch (e) { h e }] *)
Definition try_catch {A} (m : M A) (h : exn → M A) : M A :=
  λ w, match m w with
       | (Resolved a, w') => (Resolved a, w')
       | (Rejected e, w') => h e w'
       end.

(** Evaluating an identifier that no enclosing function, the module, nor
    Node's global object binds.  The source has four: [response] in
    [getFileInfo], [options] in [downloadFile], [item] (in the first
    filter callback, whose parameter is [i]) and [totalToMove] in
    [moveItems].  The module itself declares [Path], [fetch], [fs],
    [md5File], [promisify], [toBase64] and [ArtifactoryClient] only. *)
Definition unbound {A} (identifier : string) : M A :=
  throw (ReferenceError identifier).

(** The world after some more events. *)
Definition record (evs : list Event) (w : World) : World :=
  {| trace := trace w ++ evs; files := files w; dirs := dirs w |}.

(** The world after [content] has been written to the file [p]. *)
Definition written (p content : string) (w : World) : World :=
  {| trace := trace w; files := <[p := content]> (files w); dirs := dirs w |}.

(** A file or a directory is at [p]. *)
Definition on_disk (w : World) (p : string) : bool :=
  bool_decide (is_Some (files w !! p)) || bool_decide (p ∈ dirs w).

Definition emit (ev : Event) : M unit :=
  λ w, (Resolved tt, record [ev] w).

Definition console_log (line : string) : M unit := emit (Log line).

(** A promise is represented by what it settles to. *)
Definition Promise (A : Type) : Type := Res A.

Definition await {A} (p : Promise A) : M A := λ w, (p, w).

Fixpoint filterM {A} (f : A → M bool) (l : list A) : M (list A) :=
  match l with
  | [] => ret []
  | x :: l' =>
      b <- f x ;;
      r <- filterM f l' ;;
      ret (if b then x :: r else r)
  end.

Fixpoint mapM {A B} (f : A → M B) (l : list A) : M (list B) :=
  match l with
  | [] => ret []
  | x :: l' =>
      y <- f x ;;
      r <- mapM f l' ;;
      ret (y :: r)
  end.

(** [Promise.all]: rejects with the rejection that is observed first,
    otherwise resolves with the values in dispatch order. *)
Definition rejection_at {A} (ps : list (Promise A)) (i : nat) : option exn :=
  match ps !! i with
  | Some (Rejected e) => Some e
  | _ => None
  end.

Definition value_of {A} (p : Promise A) : option A :=
  match p with
  | Resolved a => Some a
  | Rejected _ => None
  end.

Definition Promise_all {A} (order : list nat) (ps : list (Promise A))
  : Promise (list A) :=
  match head (omap (rejection_at ps) (order ++ seq 0 (length ps))) with
  | Some e => Rejected e
  | None => Resolved (omap value_of ps)
  end.

(** ** Route templates ([ArtifactoryClient.API]) *)

Module API.

Definition filePath (path : string) : string := "/" +:+ path.

Definition getFileInfo (path : string) : string := "/api/storage/" +:+ path.

Definition downloadFolder (path archiveType : string) : string :=
  "/api/archive/download/" +:+ path +:+ "?archiveType=" +:+ archiveType.

(** [dry] is destructured with the default [false]. *)
Definition moveItem (srcPath dstPath : string) (dry : option bool) : string :=
  "/api/move/" +:+ srcPath +:+ "?to=/" +:+ dstPath
    +:+ "?dry=" +:+ Js.show_bool (default false dry).

Definition encryptedPassword : string := "/api/security/encryptedPassword".

Definition getNpmConfigGlobal : string := "/api/npm/auth".

Definition getNpmConfigScoped (repoKey scope : string) : string :=
  "/api/npm/" +:+ repoKey +:+ "/auth/" +:+ scope.

End API.

(** ** Reading a URL

    How the receiving end splits a request target (RFC 3986, and the
    [application/x-www-form-urlencoded] convention for the query): the
    query is what follows the first [?], its parameters are separated by
    [&], and a parameter's name ends at its first [=]. *)

Module Url.

Fixpoint split_at (c : ascii) (s : string) : option (string * string) :=
  match s with
  | EmptyString => None
  | String a s' =>
      if bool_decide (a = c) then Some (EmptyString, s')
      else match split_at c s' with
           | Some (l, r) => Some (String a l, r)
           | None => None
           end
  end.

(** [c] does not occur in [s]. *)
Fixpoint free_of (c : ascii) (s : string) : bool :=
  match s with
  | EmptyString => true
  | String a s' => negb (bool_decide (a = c)) && free_of c s'
  end.

Definition query (url : string) : option string :=
  snd <$> split_at "?"%char url.

Fixpoint fields (fuel : nat) (q : string) : list string :=
  match fuel with
  | O => [q]
  | S fuel' =>
      match split_at "&"%char q with
      | Some (l, r) => l :: fields fuel' r
      | None => [q]
      end
  end.

Definition param (field : string) : string * string :=
  default (field, EmptyString) (split_at "="%char field).

Definition params (url : string) : list (string * string) :=
  match query url with
  | Some q => param <$> fields (String.length q) q
  | None => []
  end.

Definition lookup (name : string) (ps : list (string * string)) : option string :=
  snd <$> List.find (λ p, bool_decide (fst p = name)) ps.

End Url.

(** The value of the [to] parameter the receiving end reads from the
    route [API.moveItem srcPath dstPath dryrun]. *)
Definition target (dstPath : string) (dryrun : option bool) : string :=
  "/" +:+ dstPath +:+ "?dry=" +:+ Js.show_bool (default false dryrun).

(** ** The class *)

Record Options := mkOptions {
  method : option Method;
  headers : gmap string string;
  body : option Body
}.

Definition with_method (m : Method) : Options :=
  {| method := Some m; headers := ∅; body := None |}.

(** The request node-fetch sends for [fetch(url, options)]. *)
Definition to_request (url : string) (options : Options) : Request :=
  {| req_method := default GET (method options);
     req_url := url;
     req_headers := map_to_list (headers options);
     req_body := body options |}.

Section ArtifactoryClient.

Variable E : Env.
Variable this : Client.

(** *** Collaborators *)

(** [fetch(url, options)]: puts the request on the wire and hands back
    the promise of its response. *)
Definition fetch (url : string) (options : Options) : M (Promise Response) :=
  λ w,
    let r := to_request url options in
    (Resolved match respond E (trace w) r with
              | Responds res => Resolved res
              | Fails reason => Rejected (FetchError reason)
              end,
     record [Fetch r] w).

Definition existsSync (p : string) : M bool :=
  λ w, (Resolved (on_disk w p), w).

Definition createReadStream (p : string) : M Body :=
  emit (OpenRead p) ;; ret (LocalStream p).

Definition createWriteStream (p : string) : M string :=
  emit (OpenWrite p) ;; ret p.

(** [res.body.pipe(stream); await streamWaiter] *)
Definition pipe_and_wait (content : string) (stream : string) : M unit :=
  λ w, match pipe_outcome E (trace w) stream content with
       | Finished => (Resolved tt, written stream content w)
       | Errored (Some partial) reason =>
           (Rejected (StreamError reason), written stream partial w)
       | Errored None reason => (Rejected (StreamError reason), w)
       end.

Definition md5File (p : string) : M string :=
  λ w, match files w !! p with
       | Some content => (Resolved (md5_digest E content), w)
       | None => (Rejected (Error ("ENOENT: " +:+ p)), w)
       end.

Definition json (res : Response) : M Info :=
  match res_json res with
  | Some doc => ret doc
  | None => throw (SyntaxError "invalid json response body")
  end.

Definition arrival_order : M (list nat) :=
  λ w, (Resolved (arrival E (trace w)), w).

(** *** Methods *)

Definition getRequestOptions (overwrite : Options) : Options :=
  {| method := method overwrite;
     headers :=
       if Js.truthy (basicHttpAuth this)
       then <["Authorization" := "Basic " +:+ Js.show_opt (basicHttpAuth this)]>
              (headers overwrite)
       else headers overwrite;
     body := body overwrite |}.

(** [api(params)] is passed already applied, as [route]. *)
Definition _fetch (route : string) (options : Options) : M (Promise Response) :=
  let url := base_url this +:+ route in
  let options := getRequestOptions options in
  console_log url ;;
  fetch url options.

Definition getFileInfo (path : string) : M Info :=
  p <- _fetch (API.getFileInfo path) {| method := None; headers := ∅; body := None |} ;;
  res <- await p ;;
  if negb (ok res)
  then (statusCode <- unbound (A := string) "response" ;;
        throw (Error statusCode))
  else json res.

Definition getFolderInfo (path : string) : M Info :=
  getFileInfo (asDirectory path).

Definition isPathExists (path : string) : M bool :=
  p <- _fetch (API.filePath path) (with_method HEAD) ;;
  res <- await p ;;
  ret (ok res).

Definition uploadFile (path fileToUploadPath : string)
    (forceUpload : option bool) : M Info :=
  let forceUpload := default false forceUpload in
  let isRemote := Js.is_http_url fileToUploadPath in
  let fileToUpload :=
    if isRemote then fileToUploadPath else path_resolve E fileToUploadPath in
  missing <- (if negb isRemote
              then (present <- existsSync fileToUpload ;; ret (negb present))
              else ret false) ;;
  if (missing : bool)
  then throw (Error ("The file to upload " +:+ fileToUpload +:+ " does not exist"))
  else
    fileExists <- isPathExists path ;;
    if (fileExists : bool) && negb forceUpload
    then throw (Error
      "File already exists and forceUpload flag was not provided with a TRUE value.")
    else
      stream <- (if isRemote
                 then (fetch fileToUpload
                         {| method := None; headers := ∅; body := None |} ;;
                       ret (RemoteStream fileToUpload))
                 else createReadStream fileToUpload) ;;
      p <- _fetch (API.filePath path)
             {| method := Some PUT; headers := ∅; body := Some stream |} ;;
      res <- await p ;;
      if negb (ok res)
      then throw (Error ("HTTP Status Code from server was: " +:+ pretty (status res)))
      else json res.

Definition downloadFile (path destinationFile : string)
    (checkFileIntegrity : option bool) : M unit :=
  let checkFileIntegrity := default false checkFileIntegrity in
  let destinationPath := path_resolve E destinationFile in
  present <- existsSync (path_dirname E destinationPath) ;;
  if negb present
  then throw (Error ("The destination folder " +:+ path_dirname E destinationPath
                       +:+ " does not exist."))
  else
    p <- _fetch (API.filePath path) {| method := None; headers := ∅; body := None |} ;;
    res <- await p ;;
    if negb (ok res)
    then throw (Error ("Could not download file: " +:+ pretty (status res)))
    else
      stream <- createWriteStream destinationPath ;;
      pipe_and_wait (res_text res) stream ;;
      if checkFileIntegrity
      then
        fileInfo <- getFileInfo path ;;
        checkSum <- md5File destinationPath ;;
        match checksums fileInfo with
        | None => throw (TypeError "Cannot read property 'md5' of undefined")
        | Some sums =>
            if negb (bool_decide (Some checkSum = md5 sums))
            then (url <- unbound (A := string) "options" ;;
                  throw (Error ("Error downloading file " +:+ url
                    +:+ ". Checksum (MD5) validation failed. Expected: "
                    +:+ Js.show_opt (md5 sums)
                    +:+ " - Actual downloaded: " +:+ checkSum)))
            else ret tt
        end
      else ret tt.

Definition downloadFolder (path destinationFile : string)
    (archiveType : option string) : M unit :=
  let archiveType := default "zip" archiveType in
  let destinationPath := path_resolve E destinationFile in
  present <- existsSync (path_dirname E destinationPath) ;;
  if negb present
  then throw (Error ("The destination folder " +:+ path_dirname E destinationPath
                       +:+ " does not exist."))
  else
    p <- _fetch (API.downloadFolder path archiveType)
           {| method := None; headers := ∅; body := None |} ;;
    res <- await p ;;
    stream <- createWriteStream destinationPath ;;
    pipe_and_wait (res_text res) stream.

Definition createFolder (path : string) : M string :=
  let path := asDirectory path in
  p <- _fetch (API.filePath path) (with_method PUT) ;;
  res <- await p ;;
  if negb (ok res)
  then throw (Error ("Could not create folder: " +:+ pretty (status res)))
  else ret (res_text res).

Definition _deletePath (path : string) : M string :=
  p <- _fetch (API.filePath path) (with_method DELETE) ;;
  res <- await p ;;
  if negb (ok res)
  then throw (Error (pretty (status res)))
  else ret (res_text res).

Definition deleteFolder (path : string) : M string :=
  _deletePath (asDirectory path).

Definition deleteFile (path : string) : M string :=
  _deletePath path.

(** An async function called without [await]: it runs up to its first
    suspension (the request is issued) and returns its promise; what
    follows the suspension has no effect on the world. *)
Definition _moveItem (srcPath dstPath : string) (dryrun : option bool)
  : M (Promise string) :=
  p <- _fetch (API.moveItem srcPath dstPath dryrun) (with_method POST) ;;
  ret match p with
      | Resolved res =>
          if negb (ok res)
          then Rejected (Error (pretty (status res)))
          else Resolved (res_text res)
      | Rejected e => Rejected e
      end.

Definition moveItem (srcPath dstPath : string) (dryrun : option bool)
  : M string :=
  (if ends_with_sep dstPath
   then try_catch (createFolder dstPath ;; ret tt) (λ _, ret tt)
   else ret tt) ;;
  p <- _moveItem srcPath dstPath dryrun ;;
  await p.

(** [item.uri] where a string method is then called on it. *)
Definition uri_string (item : Child) : M string :=
  match uri item with
  | Some u => ret u
  | None => throw (TypeError "Cannot read property of undefined")
  end.

Definition moveItems (srcPath : string) (filterCb : option (string → bool))
    (dstPath : string) (dryrun : option bool) : M unit :=
  let srcPath := asDirectory srcPath in
  let dstPath := asDirectory dstPath in
  result <- getFolderInfo srcPath ;;
  match children result with
  | None => throw (Error ("No files in " +:+ srcPath))
  | Some listing =>
      try_catch (createFolder dstPath ;; ret tt) (λ _, ret tt) ;;
      allItems <- filterM (λ i,
                    item <- unbound (A := Child) "item" ;;
                    ret (negb (folder item) && Js.truthy (uri item)))
                  listing ;;
      filesToMove <- filterM (λ item,
                       match filterCb with
                       | None => ret true
                       | Some cb => u <- uri_string item ;; ret (cb (baseName u))
                       end)
                     allItems ;;
      totalToMove <- unbound (A := list Child) "totalToMove" ;;
      console_log ("Start moving " +:+ pretty (length totalToMove)
                     +:+ " files to " +:+ dstPath
                     +:+ " (candidate count: " +:+ pretty (length allItems) +:+ ")") ;;
      promises <- mapM (λ item,
                    u <- uri_string item ;;
                    console_log ("Moving " +:+ u +:+ " into " +:+ dstPath) ;;
                    _moveItem (srcPath +:+ u) dstPath dryrun)
                  filesToMove ;;
      order <- arrival_order ;;
      await (Promise_all order promises) ;;
      ret tt
  end.

(** [getNpmConfig(repoKey, scope)].  The third argument of the [_fetch]
    call is the identifier [options], which nothing binds; arguments are
    evaluated before the call. *)
Definition getNpmConfig (repoKey scope : option string) : M string :=
  let api :=
    if Js.truthy repoKey && Js.truthy scope
    then API.getNpmConfigGlobal
    else API.getNpmConfigScoped (Js.show_opt repoKey) (Js.show_opt scope) in
  options <- unbound (A := Options) "options" ;;
  p <- _fetch api options ;;
  res <- await p ;;
  if negb (ok res)
  then throw (Error (pretty (status res)))
  else ret (res_text res).

(** [getEncryptedPassword(login, password)]: neither argument is used. *)
Definition getEncryptedPassword (login password : string) : M string :=
  p <- _fetch API.encryptedPassword {| method := None; headers := ∅; body := None |} ;;
  res <- await p ;;
  if negb (ok res)
  then throw (Error "Could not get encrypted password")
  else ret (res_text res).

End ArtifactoryClient.

(** ** Observing a run *)

Global Instance Method_eq_dec : EqDecision Method.
Proof. solve_decision. Defined.

(** The requests put on the wire, oldest first. *)
Definition requests (t : list Event) : list Request :=
  omap (λ ev, match ev with Fetch r => Some r | _ => None end) t.

(** The requests sent with a given verb; the move primitive is the only
    POST the client sends, an upload or a folder creation is a PUT. *)
Definition sent (m : Method) (t : list Event) : list Request :=
  filter (λ r, req_method r = m) (requests t).

(** The streams opened on local files. *)
Definition opened (t : list Event) : list string :=
  omap (λ ev, match ev with
              | OpenRead f => Some f
              | OpenWrite f => Some f
              | _ => None
              end) t.

(** The request [_fetch] sends for a route. *)
Definition wire (this : Client) (route : string) (options : Options) : Request :=
  to_request (base_url this +:+ route) (getRequestOptions this options).

Definition plain : Options := {| method := None; headers := ∅; body := None |}.

(** The two events of one [_fetch]. *)
Definition call (this : Client) (route : string) (options : Options) : list Event :=
  [Log (base_url this +:+ route); Fetch (wire this route options)].

(** The world once the response to a plain request on [route] has been
    received and a write stream on [dest] created. *)
Definition receiving (this : Client) (route dest : string) (w : World) : World :=
  record (call this route plain ++ [OpenWrite dest]) w.

(** [name.endsWith(suffix)] *)
Definition endsWith (name suffix : string) : bool :=
  bool_decide
    (Js.drop (String.length name - String.length suffix) name = suffix).

(** The options of the PUT that carries an upload. *)
Definition put_with (stream : Body) : Options :=
  {| method := Some PUT; headers := ∅; body := Some stream |}.

(** ** Footprints

    [respects I m]: whatever world [m] starts in, the world it ends in is
    related to it by [I]. *)
Definition respects (I : World → World → Prop) {A} (m : M A) : Prop :=
  ∀ w, I w (m w).2.

(** The local files are the same. *)
Definition same_files (w w' : World) : Prop := files w' = files w.

(** The trace has grown by events that all satisfy [allowed]. *)
Definition grows_by (allowed : Event → bool) (w w' : World) : Prop :=
  ∃ evs, trace w' = trace w ++ evs ∧ Forall (λ ev, allowed ev = true) evs.

(** Console output and requests other than DELETE. *)
Definition not_a_delete (ev : Event) : bool :=
  match ev with
  | Fetch r => negb (bool_decide (req_method r = DELETE))
  | _ => true
  end.

(** Console output and bodiless GET or HEAD requests. *)
Definition is_query (ev : Event) : bool :=
  match ev with
  | Log _ => true
  | Fetch r =>
      (bool_decide (req_method r = GET) || bool_decide (req_method r = HEAD))
      && bool_decide (req_body r = None)
  | _ => false
  end.

(** ** A concrete installation, for running the methods *)

Module Sample.

Definition client : Client := constructor "http://localhost:8080/artifactory/".

Definition file (name : string) : Child :=
  {| uri := Some name; folder := false |}.

Definition listing (items : list Child) : Response :=
  {| status := 200; res_text := "";
     res_json := Some {| children := Some items; checksums := None |} |}.

Definition fileinfo (digest : string) : Response :=
  {| status := 200; res_text := "";
     res_json := Some {| children := None;
                         checksums := Some {| md5 := Some digest |} |} |}.

Definition reply (code : nat) (text : string) : Response :=
  {| status := code; res_text := text; res_json := None |}.

(** A server given by a table from (verb, URL) to response; anything
    else is answered 404. *)
Definition server (table : list (Method * string * Response))
    (_ : list Event) (r : Request) : FetchOutcome :=
  match List.find (λ row, bool_decide (row.1.1 = req_method r)
                          && bool_decide (row.1.2 = req_url r)) table with
  | Some row => Responds row.2
  | None => Responds (reply 404 "Not Found")
  end.

Definition posix_dirname (p : string) : string :=
  Js.take (Z.to_nat (Js.lastIndexOf p "/"%char)) p.

Definition env (table : list (Method * string * Response)) : Env :=
  {| path_resolve := λ p, p;
     path_dirname := posix_dirname;
     md5_digest := λ content, "md5:" +:+ content;
     respond := server table;
     pipe_outcome := λ _ _ _, Finished;
     arrival := λ _, [] |}.

Definition disk : World :=
  {| trace := []; files := {["/tmp/old.bin" := "old"]}; dirs := {["/tmp"]} |}.

Definition root : string := "http://localhost:8080/artifactory".

(** A source directory holding a.zip, b.txt and c.zip. *)
Definition three_files : Env :=
  env [(GET, root +:+ "/api/storage/src/",
        listing [file "/a.zip"; file "/b.txt"; file "/c.zip"])].

(** [name => name.endsWith('.zip')] *)
Definition is_zip (name : string) : bool := endsWith name ".zip".

(** An empty source directory. *)
Definition no_files : Env :=
  env [(GET, root +:+ "/api/storage/src/", listing [])].

(** A repository that already holds repo/a.bin. *)
Definition holding : Env :=
  env [(HEAD, root +:+ "/repo/a.bin", reply 200 "")].

(** A repository serving repo/a.bin and reporting a digest that is
    not the one of the bytes served. *)
Definition corrupting : Env :=
  env [(GET, root +:+ "/repo/a.bin", reply 200 "payload");
       (GET, root +:+ "/api/storage/repo/a.bin", fileinfo "md5:other")].

(** A repository that knows no path at all. *)
Definition empty : Env := env [].

(** A repository whose archive endpoint fails. *)
Definition failing_archive : Env :=
  env [(GET, root +:+ "/api/archive/download/repo/dir?archiveType=zip",
        reply 500 "Internal Server Error")].

(** A repository that accepts the upload of repo/new.bin and the move
    of repo/a.txt into repo/dir/, and answers 404 to everything else (the
    creation of repo/dir/ included). *)
Definition accepting : Env :=
  env [(PUT, root +:+ "/repo/new.bin",
        {| status := 201; res_text := "";
           res_json := Some {| children := None; checksums := None |} |});
       (POST, root +:+ "/api/move/repo/a.txt?to=/repo/dir/?dry=false",
        reply 200 "moved")].

(** A repository serving repo/a.bin with the right digest. *)
Definition serving : Env :=
  env [(GET, root +:+ "/repo/a.bin", reply 200 "payload");
       (GET, root +:+ "/api/storage/repo/a.bin", fileinfo "md5:payload")].

(** The same, on a disk whose writes fail half way. *)
Definition breaking : Env :=
  {| path_resolve := λ p, p;
     path_dirname := posix_dirname;
     md5_digest := λ content, "md5:" +:+ content;
     respond := respond serving;
     pipe_outcome := λ _ _ _, Errored (Some "pay") "EIO";
     arrival := λ _, [] |}.

(** A source path that is a file, not a folder: its info has no
    [children]. *)
Definition not_a_folder : Env :=
  env [(GET, root +:+ "/api/storage/src/", fileinfo "md5:payload")].

End Sample.

(** * Properties *)

(** ** Path normalisation *)

Section PathSemantics.

Lemma app_cons a s t : String a s +:+ t = String a (s +:+ t).
Proof. reflexivity. Qed.

Lemma app_empty_l t : EmptyString +:+ t = t.
Proof. reflexivity. Qed.

Lemma get_length s : ∀ a, String.get (String.length s) (String a s) = Some (last_of a s).
Proof. induction s as [|b s IH]; intros a; [reflexivity|]. exact (IH b). Qed.

Lemma ends_with_sep_empty : ends_with_sep EmptyString = false.
Proof. reflexivity. Qed.

Lemma ends_with_sep_cons a s :
  ends_with_sep (String a s) = bool_decide (last_of a s = "/"%char).
Proof.
  unfold ends_with_sep, Js.index, Js.length.
  replace (Z.of_nat (String.length (String a s)) - 1)%Z
    with (Z.of_nat (String.length s)) by (simpl String.length; lia).
  destruct (Z.ltb_spec (Z.of_nat (String.length s)) 0); [lia|].
  rewrite Nat2Z.id, get_length.
  apply bool_decide_ext. split; [by intros [= ->]|by intros ->].
Qed.

Lemma last_of_app_sep s : ∀ a, last_of a (s +:+ "/") = "/"%char.
Proof.
  induction s as [|b s IH]; intros a; [reflexivity|].
  rewrite app_cons. simpl. apply IH.
Qed.

Lemma ends_with_sep_app_sep p : ends_with_sep (p +:+ "/") = true.
Proof.
  destruct p as [|a p]; [reflexivity|].
  rewrite app_cons, ends_with_sep_cons, last_of_app_sep.
  by apply bool_decide_eq_true.
Qed.

Lemma length_app_sep s : String.length (s +:+ "/") = S (String.length s).
Proof.
  induction s as [|a s IH]; [reflexivity|].
  rewrite app_cons. simpl. by rewrite IH.
Qed.

Lemma trailing_seps_app_sep s :
  ∀ a, last_of a s ≠ "/"%char → trailing_seps (String a s +:+ "/") = 1.
Proof.
  induction s as [|b s IH]; intros a Ha.
  - simpl in Ha. rewrite app_cons, app_empty_l. simpl.
    rewrite (bool_decide_eq_false_2 _ Ha). reflexivity.
  - rewrite app_cons.
    change (trailing_seps (String a (String b s +:+ "/")))
      with (let n := trailing_seps (String b s +:+ "/") in
            if bool_decide (a = "/"%char)
               && bool_decide (n = String.length (String b s +:+ "/"))
            then S n else n).
    rewrite (IH b Ha), length_app_sep. simpl.
    rewrite andb_false_r. reflexivity.
Qed.

Lemma asDirectory_idempotent p : asDirectory (asDirectory p) = asDirectory p.
Proof.
  unfold asDirectory at 2 3. destruct (ends_with_sep p) eqn:Hp.
  - unfold asDirectory. by rewrite Hp.
  - unfold asDirectory. by rewrite ends_with_sep_app_sep.
Qed.

Lemma asDirectory_file p :
  ends_with_sep p = false →
  asDirectory p = p +:+ "/" ∧ trailing_seps (asDirectory p) = 1.
Proof.
  intros Hp. unfold asDirectory. rewrite Hp. split; [done|].
  destruct p as [|a p]; [reflexivity|].
  apply trailing_seps_app_sep.
  rewrite ends_with_sep_cons in Hp. by apply bool_decide_eq_false in Hp.
Qed.

End PathSemantics.

(** ** How the methods run *)

Section Runs.

Variable E : Env.
Variable this : Client.

Lemma record_record a b w : record b (record a w) = record (a ++ b) w.
Proof. unfold record. simpl. by rewrite app_assoc. Qed.

(** One awaited [_fetch]: the URL is logged, the request sent, and the
    server's answer (or the network failure) comes back. *)
Lemma fetch_await {B} route o (k : Response → M B) w :
  (p <- _fetch E this route o ;; res <- await p ;; k res) w =
  match respond E (trace w ++ [Log (base_url this +:+ route)]) (wire this route o) with
  | Responds res => k res (record (call this route o) w)
  | Fails reason => (Rejected (FetchError reason), record (call this route o) w)
  end.
Proof.
  unfold _fetch, bind, console_log, emit, fetch, await, call, wire.
  rewrite record_record. simpl.
  by destruct (respond E _ _).
Qed.

Lemma createFolder_run path w :
  createFolder E this path w =
  let route := API.filePath (asDirectory path) in
  let w' := record (call this route (with_method PUT)) w in
  match respond E (trace w ++ [Log (base_url this +:+ route)])
          (wire this route (with_method PUT)) with
  | Responds res =>
      if ok res then (Resolved (res_text res), w')
      else (Rejected (Error ("Could not create folder: " +:+ pretty (status res))), w')
  | Fails reason => (Rejected (FetchError reason), w')
  end.
Proof.
  unfold createFolder. rewrite fetch_await. simpl.
  destruct (respond E _ _) as [res|]; [|done]. by destruct (ok res).
Qed.

(** The guard of [moveItem] and [moveItems]: whatever the creation
    attempt ends in, the caller sees a normal completion. *)
Lemma createFolder_guard path w :
  try_catch (createFolder E this path ;; ret tt) (λ _, ret tt) w =
  (Resolved tt,
   record (call this (API.filePath (asDirectory path)) (with_method PUT)) w).
Proof.
  unfold try_catch, bind at 1. rewrite createFolder_run. simpl.
  destruct (respond E _ _) as [res|]; [|done]. by destruct (ok res).
Qed.

Lemma getFileInfo_run path w :
  getFileInfo E this path w =
  let route := API.getFileInfo path in
  let w' := record (call this route plain) w in
  match respond E (trace w ++ [Log (base_url this +:+ route)])
          (wire this route plain) with
  | Responds res =>
      if ok res
      then match res_json res with
           | Some doc => (Resolved doc, w')
           | None => (Rejected (SyntaxError "invalid json response body"), w')
           end
      else (Rejected (ReferenceError "response"), w')
  | Fails reason => (Rejected (FetchError reason), w')
  end.
Proof.
  unfold getFileInfo. fold plain. rewrite fetch_await. simpl.
  destruct (respond E _ _) as [res|]; [|done].
  destruct (ok res); [|done]. unfold json. by destruct (res_json res).
Qed.

Lemma _moveItem_run srcPath dstPath dryrun w :
  (p <- _moveItem E this srcPath dstPath dryrun ;; await p) w =
  let route := API.moveItem srcPath dstPath dryrun in
  let w' := record (call this route (with_method POST)) w in
  match respond E (trace w ++ [Log (base_url this +:+ route)])
          (wire this route (with_method POST)) with
  | Responds res =>
      if ok res then (Resolved (res_text res), w')
      else (Rejected (Error (pretty (status res))), w')
  | Fails reason => (Rejected (FetchError reason), w')
  end.
Proof.
  unfold _moveItem, _fetch, bind, console_log, emit, fetch, await, ret, call, wire.
  rewrite record_record. simpl.
  destruct (respond E _ _) as [res|]; [|done]. by destruct (ok res).
Qed.

End Runs.

Section BatchMove.

Variable E : Env.
Variable this : Client.

(** Every way a [moveItems] call can end. *)
Lemma moveItems_run srcPath filterCb dstPath dryrun w :
  moveItems E this srcPath filterCb dstPath dryrun w =
  let src := asDirectory srcPath in
  let dst := asDirectory dstPath in
  let listed := record (call this (API.getFileInfo src) plain) w in
  let ensured := record (call this (API.filePath dst) (with_method PUT)) listed in
  match respond E (trace w ++ [Log (base_url this +:+ API.getFileInfo src)])
          (wire this (API.getFileInfo src) plain) with
  | Responds res =>
      if ok res
      then match res_json res with
           | Some doc =>
               match children doc with
               | None => (Rejected (Error ("No files in " +:+ src)), listed)
               | Some [] => (Rejected (ReferenceError "totalToMove"), ensured)
               | Some (_ :: _) => (Rejected (ReferenceError "item"), ensured)
               end
           | None => (Rejected (SyntaxError "invalid json response body"), listed)
           end
      else (Rejected (ReferenceError "response"), listed)
  | Fails reason => (Rejected (FetchError reason), listed)
  end.
Proof.
  unfold moveItems, getFolderInfo. unfold bind at 1.
  rewrite getFileInfo_run, !asDirectory_idempotent. simpl.
  destruct (respond E _ _) as [res|]; [|done].
  destruct (ok res); [|done].
  destruct (res_json res) as [doc|]; [|done].
  destruct (children doc) as [items|]; [|done].
  unfold bind at 1. rewrite createFolder_guard, asDirectory_idempotent.
  by destruct items.
Qed.

End BatchMove.

Section Observations.

Variable this : Client.

Lemma requests_record evs w :
  requests (trace (record evs w)) = requests (trace w) ++ requests evs.
Proof. unfold requests, record. simpl. apply omap_app. Qed.

Lemma sent_record m evs w :
  sent m (trace (record evs w)) = sent m (trace w) ++ sent m evs.
Proof. unfold sent. by rewrite requests_record, filter_app. Qed.

Lemma opened_record evs w :
  opened (trace (record evs w)) = opened (trace w) ++ opened evs.
Proof. unfold opened, record. simpl. apply omap_app. Qed.

Lemma requests_call route o : requests (call this route o) = [wire this route o].
Proof. reflexivity. Qed.

Lemma opened_call route o : opened (call this route o) = [].
Proof. reflexivity. Qed.

Lemma wire_method route o :
  req_method (wire this route o) = default GET (method o).
Proof. reflexivity. Qed.

Lemma sent_call m route o :
  sent m (call this route o) =
  if bool_decide (default GET (method o) = m) then [wire this route o] else [].
Proof.
  unfold sent. rewrite requests_call.
  rewrite filter_cons, filter_nil, wire_method.
  destruct (decide (default GET (method o) = m)) as [Heq|Hne].
  - by rewrite bool_decide_eq_true_2.
  - by rewrite bool_decide_eq_false_2.
Qed.

End Observations.

Section BatchMoveClaims.

Variable E : Env.
Variable this : Client.

(** C1.  On a listing with at least one entry (the listing a.zip, b.txt,
    c.zip in particular) the batch move rejects with a ReferenceError
    while selecting candidates: the selection callback reads [item],
    which is not its parameter.  The directory creation has been sent;
    no move request is, where two were to be sent (for a.zip and c.zip). *)
Theorem moveItems_listing_rejects srcPath filterCb dstPath dryrun w res doc first rest :
  respond E (trace w ++ [Log (base_url this +:+ API.getFileInfo (asDirectory srcPath))])
    (wire this (API.getFileInfo (asDirectory srcPath)) plain) = Responds res →
  ok res = true →
  res_json res = Some doc →
  children doc = Some (first :: rest) →
  let run := moveItems E this srcPath filterCb dstPath dryrun w in
  run.1 = Rejected (ReferenceError "item")
  ∧ sent POST (trace run.2) = sent POST (trace w)
  ∧ requests (trace run.2) =
      requests (trace w)
        ++ [wire this (API.getFileInfo (asDirectory srcPath)) plain;
            wire this (API.filePath (asDirectory dstPath)) (with_method PUT)].
Proof.
  intros Hres Hok Hdoc Hitems run. subst run.
  rewrite moveItems_run. cbv zeta. rewrite Hres, Hok, Hdoc, Hitems. cbn [fst snd].
  split; [done|].
  rewrite !sent_record, !requests_record, !sent_call, !requests_call. cbn.
  by rewrite !app_nil_r, <- app_assoc.
Qed.

(** C5.  On a listing whose [children] is the empty array the guard
    [!result.children] does not fire (an empty array is truthy): the
    destination directory creation is sent, and the call then rejects
    with a ReferenceError on [totalToMove], not with the "No files"
    error. *)
Theorem moveItems_empty_listing_creates srcPath filterCb dstPath dryrun w res doc :
  respond E (trace w ++ [Log (base_url this +:+ API.getFileInfo (asDirectory srcPath))])
    (wire this (API.getFileInfo (asDirectory srcPath)) plain) = Responds res →
  ok res = true →
  res_json res = Some doc →
  children doc = Some [] →
  let run := moveItems E this srcPath filterCb dstPath dryrun w in
  run.1 = Rejected (ReferenceError "totalToMove")
  ∧ sent PUT (trace run.2) =
      sent PUT (trace w)
        ++ [wire this (API.filePath (asDirectory dstPath)) (with_method PUT)]
  ∧ sent POST (trace run.2) = sent POST (trace w).
Proof.
  intros Hres Hok Hdoc Hitems run. subst run.
  rewrite moveItems_run. cbv zeta. rewrite Hres, Hok, Hdoc, Hitems. cbn [fst snd].
  split; [done|].
  rewrite !sent_record, !sent_call. cbn.
  by rewrite !app_nil_r.
Qed.

(** X21.  The guard does fire when the listing has no [children] field
    at all: the batch move rejects with "No files in" and the normalised
    source, and nothing but the listing request was sent. *)
Lemma moveItems_without_children_field srcPath filterCb dstPath dryrun w res doc :
  respond E (trace w ++ [Log (base_url this +:+ API.getFileInfo (asDirectory srcPath))])
    (wire this (API.getFileInfo (asDirectory srcPath)) plain) = Responds res →
  ok res = true →
  res_json res = Some doc →
  children doc = None →
  let run := moveItems E this srcPath filterCb dstPath dryrun w in
  run.1 = Rejected (Error ("No files in " +:+ asDirectory srcPath))
  ∧ requests (trace run.2) =
      requests (trace w) ++ [wire this (API.getFileInfo (asDirectory srcPath)) plain].
Proof.
  intros Hres Hok Hdoc Hitems run. subst run.
  rewrite moveItems_run. cbv zeta. rewrite Hres, Hok, Hdoc, Hitems. cbn [fst snd].
  split; [done|]. by rewrite requests_record, requests_call.
Qed.

(** C7.  No batch move call ever succeeds, and none sends a move
    request: whatever the server answers, the call rejects before the
    dispatch at [filesToMove.map] is reached.  So a batch whose every
    (that is, no) dispatched move succeeded still fails. *)
Theorem moveItems_never_resolves srcPath filterCb dstPath dryrun w :
  let run := moveItems E this srcPath filterCb dstPath dryrun w in
  (∃ e, run.1 = Rejected e) ∧ sent POST (trace run.2) = sent POST (trace w).
Proof.
  intros run. subst run. rewrite moveItems_run. cbv zeta.
  destruct (respond E _ _) as [res|];
    [destruct (ok res);
     [destruct (res_json res) as [doc|];
      [destruct (children doc) as [[|first rest]|]|]|]|];
    cbn [fst snd]; (split; [by eexists|]);
    rewrite !sent_record, !sent_call; cbn; by rewrite !app_nil_r.
Qed.

End BatchMoveClaims.

(** ** The move request on the wire *)

Section MoveUrl.

Lemma append_assoc (a b c : string) : (a +:+ b) +:+ c = a +:+ b +:+ c.
Proof. induction a as [|x a IH]; [done|]. rewrite !app_cons. by rewrite IH. Qed.

Lemma free_of_app c a b :
  Url.free_of c (a +:+ b) = Url.free_of c a && Url.free_of c b.
Proof.
  induction a as [|x a IH]; [done|].
  rewrite app_cons. simpl. rewrite IH. by rewrite andb_assoc.
Qed.

Lemma split_at_app c a b :
  Url.free_of c a = true → Url.split_at c (a +:+ String c b) = Some (a, b).
Proof.
  induction a as [|x a IH]; intros Hfree.
  - rewrite app_empty_l. simpl. by rewrite bool_decide_eq_true_2.
  - simpl in Hfree. apply andb_true_iff in Hfree as [Hx Ha].
    rewrite app_cons. simpl.
    apply negb_true_iff in Hx. rewrite Hx. by rewrite (IH Ha).
Qed.

Lemma split_at_free c s : Url.free_of c s = true → Url.split_at c s = None.
Proof.
  induction s as [|x s IH]; [done|]. simpl. intros Hfree.
  apply andb_true_iff in Hfree as [Hx Hs].
  apply negb_true_iff in Hx. rewrite Hx. by rewrite (IH Hs).
Qed.

Lemma fields_free n q : Url.free_of "&" q = true → Url.fields n q = [q].
Proof. intros Hfree. destruct n; [done|]. simpl. by rewrite split_at_free. Qed.

Lemma last_of_app a s b t : last_of a (s +:+ String b t) = last_of b t.
Proof.
  revert a. induction s as [|x s IH]; intros a; [done|].
  rewrite app_cons. simpl. apply IH.
Qed.

Lemma moveItem_url_params base srcPath dstPath dryrun :
  Url.free_of "?" (base +:+ "/api/move/" +:+ srcPath) = true →
  Url.free_of "&" dstPath = true →
  Url.params (base +:+ API.moveItem srcPath dstPath dryrun)
  = [("to", target dstPath dryrun)].
Proof.
  intros Hsrc Hdst. unfold Url.params, Url.query, API.moveItem.
  replace (base +:+ "/api/move/" +:+ srcPath +:+ "?to=/" +:+ dstPath
             +:+ "?dry=" +:+ Js.show_bool (default false dryrun))
    with ((base +:+ "/api/move/" +:+ srcPath)
            +:+ String "?" ("to=" +:+ target dstPath dryrun))
    by (by rewrite !append_assoc).
  rewrite (split_at_app _ _ _ Hsrc). cbn [fmap option_fmap option_map snd].
  rewrite fields_free.
  - reflexivity.
  - unfold target. rewrite !free_of_app, Hdst. by destruct dryrun as [[]|].
Qed.

Lemma target_is_file_shaped dstPath dryrun :
  ends_with_sep (target dstPath dryrun) = false.
Proof.
  unfold target. rewrite app_cons, ends_with_sep_cons, app_empty_l.
  apply bool_decide_eq_false.
  destruct dryrun as [[]|]; cbn [default Js.show_bool from_option];
    rewrite (app_cons "?"), last_of_app; by vm_compute.
Qed.

End MoveUrl.

Section SingleMove.

Variable E : Env.
Variable this : Client.

Lemma moveItem_run srcPath dstPath dryrun w :
  moveItem E this srcPath dstPath dryrun w =
  (p <- _moveItem E this srcPath dstPath dryrun ;; await p)
    (if ends_with_sep dstPath
     then record (call this (API.filePath dstPath) (with_method PUT)) w
     else w).
Proof.
  unfold moveItem. unfold bind at 1.
  destruct (ends_with_sep dstPath) eqn:Hdir; [|done].
  rewrite createFolder_guard. unfold asDirectory. by rewrite Hdir.
Qed.

(** The disambiguation rule as [moveItem] implements it: for a
    directory-shaped destination the folder creation is sent first, its
    outcome plays no part in the result, and one move request follows. *)
Lemma moveItem_directory_protocol srcPath dstPath dryrun w :
  ends_with_sep dstPath = true →
  let create := call this (API.filePath dstPath) (with_method PUT) in
  let route := API.moveItem srcPath dstPath dryrun in
  let run := moveItem E this srcPath dstPath dryrun w in
  run.2 = record (create ++ call this route (with_method POST)) w
  ∧ run.1 =
      match respond E (trace w ++ create ++ [Log (base_url this +:+ route)])
              (wire this route (with_method POST)) with
      | Responds res =>
          if ok res then Resolved (res_text res)
          else Rejected (Error (pretty (status res)))
      | Fails reason => Rejected (FetchError reason)
      end.
Proof.
  intros Hdir create route run. subst run.
  rewrite moveItem_run, Hdir, _moveItem_run. cbv zeta.
  rewrite record_record.
  replace (trace w ++ create ++ [Log (base_url this +:+ route)])
    with (trace (record create w) ++ [Log (base_url this +:+ route)])
    by (unfold record; simpl; by rewrite <- app_assoc).
  subst create route.
  destruct (respond E _ _) as [res|]; [|done]. by destruct (ok res).
Qed.

Lemma moveItem_sends_one_move srcPath dstPath dryrun w :
  sent POST (trace (moveItem E this srcPath dstPath dryrun w).2)
  = sent POST (trace w)
      ++ [wire this (API.moveItem srcPath dstPath dryrun) (with_method POST)].
Proof.
  rewrite moveItem_run, _moveItem_run. cbv zeta.
  destruct (ends_with_sep dstPath);
    (destruct (respond E _ _) as [res|]; [destruct (ok res)|]);
    cbn [snd]; rewrite !sent_record, !sent_call; cbn;
    by rewrite ?app_nil_r.
Qed.

Lemma append_nil_r (s : string) : s +:+ "" = s.
Proof. induction s as [|a s IH]; [done|]. rewrite app_cons. by rewrite IH. Qed.

Lemma target_is_not_destination dstPath dryrun :
  target dstPath dryrun ≠ "/" +:+ dstPath.
Proof.
  unfold target. intros Heq.
  rewrite <- (append_nil_r dstPath) in Heq at 2.
  apply (inj (String.app "/")), (inj (String.app dstPath)) in Heq.
  by destruct dryrun as [[]|].
Qed.

(** C2.  The move request carries a single query parameter: the second
    [?] of the route template keeps the [dry] flag inside the value of
    [to].  There is no [dry] parameter, and [to] is not the destination. *)
Theorem moveItem_sends_no_dry_parameter srcPath dstPath dryrun w :
  Url.free_of "?" (base_url this +:+ "/api/move/" +:+ srcPath) = true →
  Url.free_of "&" dstPath = true →
  let run := moveItem E this srcPath dstPath dryrun w in
  let move := wire this (API.moveItem srcPath dstPath dryrun) (with_method POST) in
  sent POST (trace run.2) = sent POST (trace w) ++ [move]
  ∧ Url.params (req_url move) = [("to", target dstPath dryrun)]
  ∧ Url.lookup "dry" (Url.params (req_url move)) = None
  ∧ Url.lookup "to" (Url.params (req_url move)) ≠ Some ("/" +:+ dstPath).
Proof.
  intros Hsrc Hdst run move. subst run move.
  split; [apply moveItem_sends_one_move|].
  change (req_url (wire this (API.moveItem srcPath dstPath dryrun) (with_method POST)))
    with (base_url this +:+ API.moveItem srcPath dstPath dryrun).
  rewrite (moveItem_url_params _ _ _ _ Hsrc Hdst).
  split; [done|]. split; [done|].
  change (Url.lookup "to" [("to", target dstPath dryrun)])
    with (Some (target dstPath dryrun)).
  intros Heq. apply (target_is_not_destination dstPath dryrun). congruence.
Qed.

(** C3.  For a directory-shaped destination the folder creation and then
    one move request are sent, but the target the move request names is
    the destination followed by [?dry=...]: a file-shaped path, so the
    server is asked for a rename and not for a move into the directory. *)
Theorem moveItem_directory_target_is_file_shaped srcPath dstPath dryrun w :
  ends_with_sep dstPath = true →
  Url.free_of "?" (base_url this +:+ "/api/move/" +:+ srcPath) = true →
  Url.free_of "&" dstPath = true →
  let run := moveItem E this srcPath dstPath dryrun w in
  let move := wire this (API.moveItem srcPath dstPath dryrun) (with_method POST) in
  requests (trace run.2) =
    requests (trace w) ++ [wire this (API.filePath dstPath) (with_method PUT); move]
  ∧ Url.lookup "to" (Url.params (req_url move)) = Some (target dstPath dryrun)
  ∧ target dstPath dryrun ≠ "/" +:+ dstPath
  ∧ ends_with_sep (target dstPath dryrun) = false.
Proof.
  intros Hdir Hsrc Hdst run move. subst run move.
  destruct (moveItem_directory_protocol srcPath dstPath dryrun w Hdir) as [Hw _].
  cbv zeta in Hw. rewrite Hw.
  split.
  { by rewrite requests_record. }
  change (req_url (wire this (API.moveItem srcPath dstPath dryrun) (with_method POST)))
    with (base_url this +:+ API.moveItem srcPath dstPath dryrun).
  rewrite (moveItem_url_params _ _ _ _ Hsrc Hdst).
  split; [done|].
  split; [apply target_is_not_destination|apply target_is_file_shaped].
Qed.

End SingleMove.

(** ** Transfers *)

Section Transfer.

Variable E : Env.
Variable this : Client.

Lemma isPathExists_run {B} path (k : bool → M B) w :
  (fileExists <- isPathExists E this path ;; k fileExists) w =
  match respond E (trace w ++ [Log (base_url this +:+ API.filePath path)])
          (wire this (API.filePath path) (with_method HEAD)) with
  | Responds res =>
      k (ok res) (record (call this (API.filePath path) (with_method HEAD)) w)
  | Fails reason =>
      (Rejected (FetchError reason),
       record (call this (API.filePath path) (with_method HEAD)) w)
  end.
Proof.
  unfold isPathExists. unfold bind at 1. rewrite fetch_await.
  by destruct (respond E _ _).
Qed.

(** C4.  Without [forceUpload], when the HEAD probe answers with a
    success status the upload rejects with the "already exists" error
    having sent the probe and nothing else: no PUT, no GET of a remote
    source, no stream opened on the local source, no file touched. *)
Theorem uploadFile_refuses_existing path fileToUploadPath forceUpload w res :
  default false forceUpload = false →
  Js.is_http_url fileToUploadPath = true
    ∨ on_disk w (path_resolve E fileToUploadPath) = true →
  respond E (trace w ++ [Log (base_url this +:+ API.filePath path)])
    (wire this (API.filePath path) (with_method HEAD)) = Responds res →
  ok res = true →
  let run := uploadFile E this path fileToUploadPath forceUpload w in
  run.1 = Rejected (Error
    "File already exists and forceUpload flag was not provided with a TRUE value.")
  ∧ requests (trace run.2) =
      requests (trace w) ++ [wire this (API.filePath path) (with_method HEAD)]
  ∧ sent PUT (trace run.2) = sent PUT (trace w)
  ∧ opened (trace run.2) = opened (trace w)
  ∧ files run.2 = files w.
Proof.
  intros Hforce Hsource Hprobe Hok run. subst run.
  assert (uploadFile E this path fileToUploadPath forceUpload w =
          (Rejected (Error
             "File already exists and forceUpload flag was not provided with a TRUE value."),
           record (call this (API.filePath path) (with_method HEAD)) w)) as ->.
  { unfold uploadFile. rewrite Hforce. unfold bind at 1.
    destruct (Js.is_http_url fileToUploadPath) eqn:Hremote; cbn [negb].
    - change (ret false w) with (Resolved false, w). cbv beta iota.
      rewrite isPathExists_run, Hprobe, Hok. reflexivity.
    - destruct Hsource as [?|Hlocal]; [done|].
      unfold existsSync, bind at 1. rewrite Hlocal.
      change (ret (negb true) w) with (Resolved false, w). cbv beta iota.
      rewrite isPathExists_run, Hprobe, Hok. reflexivity. }
  cbn [fst snd].
  rewrite requests_record, sent_record, opened_record, sent_call, requests_call.
  split; [done|]. split; [done|].
  cbn. by rewrite !app_nil_r.
Qed.

End Transfer.

Section Download.

Variable E : Env.
Variable this : Client.

(** C8.  When the GET is answered with a non-success status the download
    rejects with an error carrying that status; only the request was
    sent: no write stream was created and no local file changed. *)
Theorem downloadFile_rejected_status path destinationFile checkFileIntegrity w res :
  on_disk w (path_dirname E (path_resolve E destinationFile)) = true →
  respond E (trace w ++ [Log (base_url this +:+ API.filePath path)])
    (wire this (API.filePath path) plain) = Responds res →
  ok res = false →
  let run := downloadFile E this path destinationFile checkFileIntegrity w in
  run.1 = Rejected (Error ("Could not download file: " +:+ pretty (status res)))
  ∧ opened (trace run.2) = opened (trace w)
  ∧ files run.2 = files w
  ∧ requests (trace run.2) = requests (trace w) ++ [wire this (API.filePath path) plain].
Proof.
  intros Hdir Hres Hok run. subst run.
  assert (downloadFile E this path destinationFile checkFileIntegrity w =
          (Rejected (Error ("Could not download file: " +:+ pretty (status res))),
           record (call this (API.filePath path) plain) w)) as ->.
  { unfold downloadFile. unfold bind at 1, existsSync. rewrite Hdir. cbn [negb].
    fold plain. by rewrite fetch_await, Hres, Hok. }
  cbn [fst snd].
  rewrite opened_record, requests_record, opened_call, requests_call.
  by rewrite app_nil_r.
Qed.

(** What a download does once the response is a success and the body
    has been written out. *)
Lemma downloadFile_received path destinationFile checkFileIntegrity w res :
  let dest := path_resolve E destinationFile in
  let got := receiving this (API.filePath path) dest w in
  on_disk w (path_dirname E dest) = true →
  respond E (trace w ++ [Log (base_url this +:+ API.filePath path)])
    (wire this (API.filePath path) plain) = Responds res →
  ok res = true →
  pipe_outcome E (trace got) dest (res_text res) = Finished →
  downloadFile E this path destinationFile checkFileIntegrity w =
  (if default false checkFileIntegrity
   then
     fileInfo <- getFileInfo E this path ;;
     checkSum <- md5File E dest ;;
     match checksums fileInfo with
     | None => throw (TypeError "Cannot read property 'md5' of undefined")
     | Some sums =>
         if negb (bool_decide (Some checkSum = md5 sums))
         then (url <- unbound (A := string) "options" ;;
               throw (Error ("Error downloading file " +:+ url
                 +:+ ". Checksum (MD5) validation failed. Expected: "
                 +:+ Js.show_opt (md5 sums)
                 +:+ " - Actual downloaded: " +:+ checkSum)))
         else ret tt
     end
   else ret tt) (written dest (res_text res) got).
Proof.
  intros dest got Hdir Hres Hok Hpipe.
  unfold downloadFile. unfold bind at 1, existsSync. fold dest. rewrite Hdir.
  cbn [negb]. fold plain. rewrite fetch_await, Hres, Hok. cbn [negb].
  unfold bind at 1, createWriteStream, bind at 1, emit, ret.
  rewrite record_record. fold (receiving this (API.filePath path) dest w). fold got.
  unfold bind at 1, pipe_and_wait. rewrite Hpipe. reflexivity.
Qed.

Lemma written_lookup dest content w : files (written dest content w) !! dest = Some content.
Proof. unfold written. simpl. apply lookup_insert_eq. Qed.

(** What the integrity check does with the two digests. *)
Lemma downloadFile_checked path destinationFile w res meta doc sums :
  let dest := path_resolve E destinationFile in
  let got := receiving this (API.filePath path) dest w in
  let checked := record (call this (API.getFileInfo path) plain)
                   (written dest (res_text res) got) in
  on_disk w (path_dirname E dest) = true →
  respond E (trace w ++ [Log (base_url this +:+ API.filePath path)])
    (wire this (API.filePath path) plain) = Responds res →
  ok res = true →
  pipe_outcome E (trace got) dest (res_text res) = Finished →
  respond E (trace got ++ [Log (base_url this +:+ API.getFileInfo path)])
    (wire this (API.getFileInfo path) plain) = Responds meta →
  ok meta = true →
  res_json meta = Some doc →
  checksums doc = Some sums →
  downloadFile E this path destinationFile (Some true) w =
  (if bool_decide (Some (md5_digest E (res_text res)) = md5 sums)
   then Resolved tt
   else Rejected (ReferenceError "options"),
   checked).
Proof.
  intros dest got checked Hdir Hres Hok Hpipe Hmeta Hokm Hdoc Hsums.
  rewrite (downloadFile_received _ _ _ _ _ Hdir Hres Hok Hpipe).
  fold dest got. cbn [default from_option id].
  unfold bind at 1. rewrite getFileInfo_run. cbv zeta.
  change (trace (written dest (res_text res) got)) with (trace got).
  rewrite Hmeta, Hokm, Hdoc. fold checked.
  unfold bind at 1, md5File.
  change (files checked) with (files (written dest (res_text res) got)).
  rewrite written_lookup, Hsums.
  by destruct (bool_decide (Some (md5_digest E (res_text res)) = md5 sums)).
Qed.

(** C6.  With the integrity check on and a server digest that differs
    from the digest of the written file, the download rejects, and the
    file stays where it was written; but the rejection is a
    ReferenceError raised while the message is being built (it reads
    [options.url], and nothing named [options] is in scope), so neither
    digest reaches the caller. *)
Theorem downloadFile_mismatch_loses_digests path destinationFile w res meta doc sums :
  let dest := path_resolve E destinationFile in
  let got := receiving this (API.filePath path) dest w in
  on_disk w (path_dirname E dest) = true →
  respond E (trace w ++ [Log (base_url this +:+ API.filePath path)])
    (wire this (API.filePath path) plain) = Responds res →
  ok res = true →
  pipe_outcome E (trace got) dest (res_text res) = Finished →
  respond E (trace got ++ [Log (base_url this +:+ API.getFileInfo path)])
    (wire this (API.getFileInfo path) plain) = Responds meta →
  ok meta = true →
  res_json meta = Some doc →
  checksums doc = Some sums →
  md5 sums ≠ Some (md5_digest E (res_text res)) →
  let run := downloadFile E this path destinationFile (Some true) w in
  run.1 = Rejected (ReferenceError "options")
  ∧ (∀ message, run.1 ≠ Rejected (Error message))
  ∧ files run.2 !! dest = Some (res_text res).
Proof.
  intros dest got Hdir Hres Hok Hpipe Hmeta Hokm Hdoc Hsums Hdiff run. subst run.
  rewrite (downloadFile_checked _ _ _ _ _ _ _ Hdir Hres Hok Hpipe Hmeta Hokm Hdoc Hsums).
  rewrite bool_decide_eq_false_2 by congruence.
  cbn [fst snd]. split; [done|]. split; [done|].
  apply written_lookup.
Qed.

(** X22.  When the digest the server reports is the digest of the file
    just written, the checked download succeeds, with the body in the
    destination file. *)
Lemma downloadFile_digests_agree path destinationFile w res meta doc sums :
  let dest := path_resolve E destinationFile in
  let got := receiving this (API.filePath path) dest w in
  on_disk w (path_dirname E dest) = true →
  respond E (trace w ++ [Log (base_url this +:+ API.filePath path)])
    (wire this (API.filePath path) plain) = Responds res →
  ok res = true →
  pipe_outcome E (trace got) dest (res_text res) = Finished →
  respond E (trace got ++ [Log (base_url this +:+ API.getFileInfo path)])
    (wire this (API.getFileInfo path) plain) = Responds meta →
  ok meta = true →
  res_json meta = Some doc →
  checksums doc = Some sums →
  md5 sums = Some (md5_digest E (res_text res)) →
  let run := downloadFile E this path destinationFile (Some true) w in
  run.1 = Resolved tt ∧ files run.2 !! dest = Some (res_text res).
Proof.
  intros dest got Hdir Hres Hok Hpipe Hmeta Hokm Hdoc Hsums Hsame run. subst run.
  rewrite (downloadFile_checked _ _ _ _ _ _ _ Hdir Hres Hok Hpipe Hmeta Hokm Hdoc Hsums).
  rewrite bool_decide_eq_true_2 by congruence.
  cbn [fst snd]. split; [done|]. apply written_lookup.
Qed.

(** C10.  A folder download never looks at the response status: once
    the destination directory is there and the server has answered
    (with any status, a failure included), the body is written to the
    destination file and the call succeeds. *)
Theorem downloadFolder_ignores_status path destinationFile archiveType w res :
  let dest := path_resolve E destinationFile in
  let route := API.downloadFolder path (default "zip" archiveType) in
  on_disk w (path_dirname E dest) = true →
  respond E (trace w ++ [Log (base_url this +:+ route)]) (wire this route plain)
    = Responds res →
  pipe_outcome E (trace (receiving this route dest w)) dest (res_text res) = Finished →
  let run := downloadFolder E this path destinationFile archiveType w in
  run.1 = Resolved tt
  ∧ files run.2 !! dest = Some (res_text res)
  ∧ requests (trace run.2) = requests (trace w) ++ [wire this route plain].
Proof.
  intros dest route Hdir Hres Hpipe run. subst run.
  assert (downloadFolder E this path destinationFile archiveType w =
          (Resolved tt, written dest (res_text res) (receiving this route dest w))) as ->.
  { unfold downloadFolder. unfold bind at 1, existsSync. fold dest. rewrite Hdir.
    cbn [negb]. fold plain. fold route. rewrite fetch_await, Hres.
    unfold bind at 1, createWriteStream, bind at 1, emit, ret.
    rewrite record_record. fold (receiving this route dest w).
    unfold pipe_and_wait. by rewrite Hpipe. }
  cbn [fst snd]. split; [done|]. split; [apply written_lookup|].
  change (trace (written dest (res_text res) (receiving this route dest w)))
    with (trace (receiving this route dest w)).
  unfold receiving. by rewrite requests_record.
Qed.

End Download.

Section DirectoryOperations.

Variable E : Env.
Variable this : Client.

Lemma createFolder_requests path w :
  requests (trace (createFolder E this path w).2) =
  requests (trace w) ++ [wire this (API.filePath (asDirectory path)) (with_method PUT)].
Proof.
  rewrite createFolder_run. cbv zeta.
  destruct (respond E _ _) as [res|]; [destruct (ok res)|];
    cbn [snd]; by rewrite requests_record.
Qed.

Lemma getFolderInfo_requests path w :
  requests (trace (getFolderInfo E this path w).2) =
  requests (trace w) ++ [wire this (API.getFileInfo (asDirectory path)) plain].
Proof.
  unfold getFolderInfo. rewrite getFileInfo_run. cbv zeta.
  destruct (respond E _ _) as [res|];
    [destruct (ok res); [destruct (res_json res)|]|];
    cbn [snd]; by rewrite requests_record.
Qed.

Lemma deleteFolder_requests path w :
  requests (trace (deleteFolder E this path w).2) =
  requests (trace w) ++ [wire this (API.filePath (asDirectory path)) (with_method DELETE)].
Proof.
  unfold deleteFolder, _deletePath. rewrite fetch_await.
  destruct (respond E _ _) as [res|]; [destruct (ok res)|];
    cbn [snd negb throw ret]; by rewrite requests_record.
Qed.

Lemma moveItems_requests srcPath filterCb dstPath dryrun w :
  let listing := wire this (API.getFileInfo (asDirectory srcPath)) plain in
  let create := wire this (API.filePath (asDirectory dstPath)) (with_method PUT) in
  let sent_by_call := requests (trace (moveItems E this srcPath filterCb dstPath dryrun w).2) in
  sent_by_call = requests (trace w) ++ [listing]
  ∨ sent_by_call = requests (trace w) ++ [listing; create].
Proof.
  cbv zeta. rewrite moveItems_run. cbv zeta.
  destruct (respond E _ _) as [res|];
    [destruct (ok res);
     [destruct (res_json res) as [doc|];
      [destruct (children doc) as [[|first rest]|]|]|]|];
    cbn [snd]; rewrite !requests_record, !requests_call, <- ?app_assoc; auto.
Qed.

(** C9.  For a path without a trailing separator the normalisation
    appends one separator, the result ends with exactly one, and
    normalising again changes nothing; [createFolder], [getFolderInfo],
    [deleteFolder] and [moveItems] (for its source and its destination)
    address the server with the normalised path. *)
Theorem directory_paths_carry_one_separator p :
  ends_with_sep p = false →
  asDirectory p = p +:+ "/"
  ∧ trailing_seps (asDirectory p) = 1
  ∧ asDirectory (asDirectory p) = asDirectory p
  ∧ (∀ w, requests (trace (createFolder E this p w).2) =
          requests (trace w) ++ [wire this (API.filePath (p +:+ "/")) (with_method PUT)])
  ∧ (∀ w, requests (trace (getFolderInfo E this p w).2) =
          requests (trace w) ++ [wire this (API.getFileInfo (p +:+ "/")) plain])
  ∧ (∀ w, requests (trace (deleteFolder E this p w).2) =
          requests (trace w)
            ++ [wire this (API.filePath (p +:+ "/")) (with_method DELETE)])
  ∧ (∀ q filterCb dryrun w,
       let sent_by_call := requests (trace (moveItems E this p filterCb q dryrun w).2) in
       let listing := wire this (API.getFileInfo (p +:+ "/")) plain in
       let create := wire this (API.filePath (asDirectory q)) (with_method PUT) in
       sent_by_call = requests (trace w) ++ [listing]
       ∨ sent_by_call = requests (trace w) ++ [listing; create])
  ∧ (∀ q filterCb dryrun w,
       let sent_by_call := requests (trace (moveItems E this q filterCb p dryrun w).2) in
       let listing := wire this (API.getFileInfo (asDirectory q)) plain in
       let create := wire this (API.filePath (p +:+ "/")) (with_method PUT) in
       sent_by_call = requests (trace w) ++ [listing]
       ∨ sent_by_call = requests (trace w) ++ [listing; create]).
Proof.
  intros Hp. destruct (asDirectory_file p Hp) as [Heq Hone].
  split; [done|]. split; [done|]. split; [apply asDirectory_idempotent|].
  rewrite <- Heq.
  split; [apply createFolder_requests|].
  split; [apply getFolderInfo_requests|].
  split; [apply deleteFolder_requests|].
  split; intros q filterCb dryrun w; apply moveItems_requests.
Qed.

End DirectoryOperations.

(** ** The aggregation of a batch, taken alone *)

Section Aggregation.

Context {A : Type}.

Lemma omap_nil_iff {B C} (f : B → option C) l :
  omap f l = [] ↔ ∀ x, x ∈ l → f x = None.
Proof.
  induction l as [|y l IH]; simpl.
  - split; [|done]. intros _ x Hx. by apply elem_of_nil in Hx.
  - destruct (f y) eqn:Hy.
    + split; [done|]. intros Hall. specialize (Hall y (list_elem_of_here _ _)).
      congruence.
    + rewrite IH. split.
      * intros Hall x [->|Hx]%elem_of_cons; auto.
      * intros Hall x Hx. apply Hall. by apply elem_of_cons; right.
Qed.

(** [Promise.all] resolves exactly when every promise resolved. *)
Lemma Promise_all_resolves order (ps : list (Promise A)) :
  (∃ vs, Promise_all order ps = Resolved vs)
  ↔ Forall (λ p, ∃ a, p = Resolved a) ps.
Proof.
  unfold Promise_all. split.
  - intros [vs Hvs].
    destruct (omap (rejection_at ps) (order ++ seq 0 (length ps))) as [|e l] eqn:Hl;
      [|done].
    clear Hvs. apply Forall_lookup. intros i p Hi.
    assert (rejection_at ps i = None) as Hnone.
    { apply (proj1 (omap_nil_iff _ _) Hl).
      apply elem_of_app; right. apply elem_of_seq.
      apply lookup_lt_Some in Hi. unfold Promise in *. lia. }
    unfold rejection_at, Promise in *. rewrite Hi in Hnone.
    destruct p; [by eexists|done].
  - intros Hall.
    assert (omap (rejection_at ps) (order ++ seq 0 (length ps)) = []) as ->.
    { apply omap_nil_iff. intros i _. unfold rejection_at.
      destruct (ps !! i) as [p|] eqn:Hi; [|done].
      destruct (Forall_lookup_1 _ _ _ _ Hall Hi) as [a ->]. done. }
    by eexists.
Qed.

(** When some promise rejected, what [Promise.all] rejects with is the
    rejection of one of the promises. *)
Lemma Promise_all_rejects order (ps : list (Promise A)) e :
  Promise_all order ps = Rejected e → Rejected e ∈ ps.
Proof.
  unfold Promise_all.
  destruct (omap (rejection_at ps) (order ++ seq 0 (length ps))) as [|e' l] eqn:Hl;
    [done|].
  simpl. intros [= <-].
  assert (e' ∈ omap (rejection_at ps) (order ++ seq 0 (length ps))) as Hin
    by (rewrite Hl; apply list_elem_of_here).
  apply list_elem_of_omap in Hin as (i & _ & Hi).
  unfold rejection_at in Hi.
  destruct (ps !! i) as [[a|e'']|] eqn:Hlook; simplify_eq.
  by eapply list_elem_of_lookup_2.
Qed.

End Aggregation.

(** ** The theorems at work on the sample installation *)

Section Runs_on_sample.

Import Sample.

(** moveItems("src/", name => name.endsWith('.zip'), "dst/") over
    a.zip, b.txt, c.zip. *)
Lemma moveItems_listing_rejects_witness :
  (moveItems three_files client "src/" (Some is_zip) "dst/" None disk).1
    = Rejected (ReferenceError "item")
  ∧ sent POST (trace (moveItems three_files client "src/" (Some is_zip) "dst/" None disk).2)
    = sent POST (trace disk)
  ∧ requests (trace (moveItems three_files client "src/" (Some is_zip) "dst/" None disk).2)
    = requests (trace disk)
        ++ [wire client (API.getFileInfo (asDirectory "src/")) plain;
            wire client (API.filePath (asDirectory "dst/")) (with_method PUT)].
Proof.
  apply (moveItems_listing_rejects three_files client "src/" (Some is_zip) "dst/" None disk
           (listing [file "/a.zip"; file "/b.txt"; file "/c.zip"])
           {| children := Some [file "/a.zip"; file "/b.txt"; file "/c.zip"];
              checksums := None |}
           (file "/a.zip") [file "/b.txt"; file "/c.zip"]);
    reflexivity.
Defined.

Lemma moveItems_empty_listing_creates_witness :
  (moveItems no_files client "src/" None "dst/" None disk).1
    = Rejected (ReferenceError "totalToMove")
  ∧ sent PUT (trace (moveItems no_files client "src/" None "dst/" None disk).2)
    = sent PUT (trace disk)
        ++ [wire client (API.filePath (asDirectory "dst/")) (with_method PUT)]
  ∧ sent POST (trace (moveItems no_files client "src/" None "dst/" None disk).2)
    = sent POST (trace disk).
Proof.
  apply (moveItems_empty_listing_creates no_files client "src/" None "dst/" None disk
           (listing []) {| children := Some []; checksums := None |});
    reflexivity.
Defined.

(** moveItem("repo/a.txt", "repo/b.txt", true) *)
Lemma moveItem_sends_no_dry_parameter_witness :
  sent POST (trace (moveItem empty client "repo/a.txt" "repo/b.txt" (Some true) disk).2)
    = sent POST (trace disk)
        ++ [wire client (API.moveItem "repo/a.txt" "repo/b.txt" (Some true))
              (with_method POST)]
  ∧ Url.params (req_url (wire client (API.moveItem "repo/a.txt" "repo/b.txt" (Some true))
                           (with_method POST)))
    = [("to", target "repo/b.txt" (Some true))]
  ∧ Url.lookup "dry"
      (Url.params (req_url (wire client (API.moveItem "repo/a.txt" "repo/b.txt" (Some true))
                              (with_method POST)))) = None
  ∧ Url.lookup "to"
      (Url.params (req_url (wire client (API.moveItem "repo/a.txt" "repo/b.txt" (Some true))
                              (with_method POST)))) ≠ Some ("/" +:+ "repo/b.txt").
Proof.
  apply (moveItem_sends_no_dry_parameter empty client "repo/a.txt" "repo/b.txt"
           (Some true) disk); reflexivity.
Defined.

(** moveItem("repo/a.txt", "repo/dir/") *)
Lemma moveItem_directory_target_is_file_shaped_witness :
  requests (trace (moveItem empty client "repo/a.txt" "repo/dir/" None disk).2)
    = requests (trace disk)
        ++ [wire client (API.filePath "repo/dir/") (with_method PUT);
            wire client (API.moveItem "repo/a.txt" "repo/dir/" None) (with_method POST)]
  ∧ Url.lookup "to"
      (Url.params (req_url (wire client (API.moveItem "repo/a.txt" "repo/dir/" None)
                              (with_method POST))))
    = Some (target "repo/dir/" None)
  ∧ target "repo/dir/" None ≠ "/" +:+ "repo/dir/"
  ∧ ends_with_sep (target "repo/dir/" None) = false.
Proof.
  apply (moveItem_directory_target_is_file_shaped empty client "repo/a.txt" "repo/dir/"
           None disk); reflexivity.
Defined.

(** uploadFile("repo/a.bin", "/tmp/old.bin") onto an existing path. *)
Lemma uploadFile_refuses_existing_witness :
  (uploadFile holding client "repo/a.bin" "/tmp/old.bin" None disk).1
    = Rejected (Error
        "File already exists and forceUpload flag was not provided with a TRUE value.")
  ∧ requests (trace (uploadFile holding client "repo/a.bin" "/tmp/old.bin" None disk).2)
    = requests (trace disk) ++ [wire client (API.filePath "repo/a.bin") (with_method HEAD)]
  ∧ sent PUT (trace (uploadFile holding client "repo/a.bin" "/tmp/old.bin" None disk).2)
    = sent PUT (trace disk)
  ∧ opened (trace (uploadFile holding client "repo/a.bin" "/tmp/old.bin" None disk).2)
    = opened (trace disk)
  ∧ files (uploadFile holding client "repo/a.bin" "/tmp/old.bin" None disk).2 = files disk.
Proof.
  apply (uploadFile_refuses_existing holding client "repo/a.bin" "/tmp/old.bin" None disk
           (reply 200 "")); [reflexivity|right; reflexivity|reflexivity|reflexivity].
Defined.

(** downloadFile("repo/a.bin", "/tmp/a.bin", true) with a wrong digest. *)
Lemma downloadFile_mismatch_loses_digests_witness :
  (downloadFile corrupting client "repo/a.bin" "/tmp/a.bin" (Some true) disk).1
    = Rejected (ReferenceError "options")
  ∧ (∀ message,
       (downloadFile corrupting client "repo/a.bin" "/tmp/a.bin" (Some true) disk).1
         ≠ Rejected (Error message))
  ∧ files (downloadFile corrupting client "repo/a.bin" "/tmp/a.bin" (Some true) disk).2
      !! "/tmp/a.bin" = Some "payload".
Proof.
  apply (downloadFile_mismatch_loses_digests corrupting client "repo/a.bin" "/tmp/a.bin"
           disk (reply 200 "payload") (fileinfo "md5:other")
           {| children := None; checksums := Some {| md5 := Some "md5:other" |} |}
           {| md5 := Some "md5:other" |});
    try reflexivity.
  vm_compute. congruence.
Defined.

(** downloadFile("repo/missing.bin", "/tmp/a.bin"): 404. *)
Lemma downloadFile_rejected_status_witness :
  (downloadFile empty client "repo/missing.bin" "/tmp/a.bin" None disk).1
    = Rejected (Error ("Could not download file: " +:+ pretty 404))
  ∧ opened (trace (downloadFile empty client "repo/missing.bin" "/tmp/a.bin" None disk).2)
    = opened (trace disk)
  ∧ files (downloadFile empty client "repo/missing.bin" "/tmp/a.bin" None disk).2
    = files disk
  ∧ requests (trace (downloadFile empty client "repo/missing.bin" "/tmp/a.bin" None disk).2)
    = requests (trace disk) ++ [wire client (API.filePath "repo/missing.bin") plain].
Proof.
  apply (downloadFile_rejected_status empty client "repo/missing.bin" "/tmp/a.bin" None
           disk (reply 404 "Not Found")); reflexivity.
Defined.

(** downloadFolder("repo/dir", "/tmp/dir.zip") answered 500. *)
Lemma downloadFolder_ignores_status_witness :
  (downloadFolder failing_archive client "repo/dir" "/tmp/dir.zip" None disk).1
    = Resolved tt
  ∧ files (downloadFolder failing_archive client "repo/dir" "/tmp/dir.zip" None disk).2
      !! "/tmp/dir.zip" = Some "Internal Server Error"
  ∧ requests (trace (downloadFolder failing_archive client "repo/dir" "/tmp/dir.zip"
                       None disk).2)
    = requests (trace disk)
        ++ [wire client (API.downloadFolder "repo/dir" (default "zip" None)) plain].
Proof.
  apply (downloadFolder_ignores_status failing_archive client "repo/dir" "/tmp/dir.zip"
           None disk (reply 500 "Internal Server Error")); reflexivity.
Defined.

Lemma directory_paths_carry_one_separator_witness :
  ends_with_sep "repo/dir" = false
  ∧ asDirectory "repo/dir" = "repo/dir/"
  ∧ trailing_seps (asDirectory "repo/dir") = 1
  ∧ asDirectory (asDirectory "repo/dir") = asDirectory "repo/dir".
Proof.
  split; [reflexivity|].
  destruct (directory_paths_carry_one_separator empty client "repo/dir" eq_refl)
    as (Happ & Hone & Hidem & _).
  split; [exact Happ|]. split; [exact Hone|exact Hidem].
Defined.

End Runs_on_sample.

(** * Further properties of the client *)

(** ** Footprints compose *)

Global Instance same_files_preorder : PreOrder same_files.
Proof.
  split.
  - by intros w.
  - intros a b c Hab Hbc. unfold same_files in *. congruence.
Qed.

Global Instance grows_by_preorder allowed : PreOrder (grows_by allowed).
Proof.
  split.
  - intros w. exists []. by rewrite app_nil_r.
  - intros a b c (l1 & H1 & Hl1) (l2 & H2 & Hl2). exists (l1 ++ l2).
    split; [by rewrite H2, H1, app_assoc|by apply Forall_app].
Qed.

Section Respects.

Context (I : World → World → Prop) `{!PreOrder I}.
Variable E : Env.
Variable this : Client.

Lemma respects_ret {A} (a : A) : respects I (ret a).
Proof. intros w. reflexivity. Qed.

Lemma respects_throw {A} e : respects I (throw (A := A) e).
Proof. intros w. reflexivity. Qed.

Lemma respects_await {A} (p : Promise A) : respects I (await p).
Proof. intros w. reflexivity. Qed.

Lemma respects_bind {A B} (m : M A) (k : A → M B) :
  respects I m → (∀ a, respects I (k a)) → respects I (bind m k).
Proof.
  intros Hm Hk w. unfold bind. specialize (Hm w).
  destruct (m w) as [[a|e] w']; [|exact Hm].
  etrans; [exact Hm|apply Hk].
Qed.

Lemma respects_try_catch {A} (m : M A) h :
  respects I m → (∀ e, respects I (h e)) → respects I (try_catch m h).
Proof.
  intros Hm Hh w. unfold try_catch. specialize (Hm w).
  destruct (m w) as [[a|e] w']; [exact Hm|].
  etrans; [exact Hm|apply Hh].
Qed.

Lemma respects_filterM {A} (f : A → M bool) l :
  (∀ x, respects I (f x)) → respects I (filterM f l).
Proof.
  intros Hf. induction l as [|x l IH]; [apply respects_ret|].
  simpl. apply respects_bind; [apply Hf|intros b].
  apply respects_bind; [exact IH|intros r]. apply respects_ret.
Qed.

Lemma respects_mapM {A B} (f : A → M B) l :
  (∀ x, respects I (f x)) → respects I (mapM f l).
Proof.
  intros Hf. induction l as [|x l IH]; [apply respects_ret|].
  simpl. apply respects_bind; [apply Hf|intros b].
  apply respects_bind; [exact IH|intros r]. apply respects_ret.
Qed.

Lemma respects_existsSync p : respects I (existsSync p).
Proof. intros w. reflexivity. Qed.

Lemma respects_md5File p : respects I (md5File E p).
Proof. intros w. unfold md5File. destruct (files w !! p); reflexivity. Qed.

Lemma respects_json res : respects I (json res).
Proof. unfold json. destruct (res_json res); [apply respects_ret|apply respects_throw]. Qed.

Lemma respects_arrival_order : respects I (arrival_order E).
Proof. intros w. reflexivity. Qed.

Lemma respects_emit ev : (∀ w, I w (record [ev] w)) → respects I (emit ev).
Proof. intros Hev w. apply Hev. Qed.

Lemma respects_fetch url o :
  (∀ w, I w (record [Fetch (to_request url o)] w)) → respects I (fetch E url o).
Proof. intros Hev w. apply Hev. Qed.

Lemma respects_pipe_and_wait content p :
  (∀ text w, I w (written p text w)) → respects I (pipe_and_wait E content p).
Proof.
  intros Hwr w. unfold pipe_and_wait.
  destruct (pipe_outcome E _ _ _) as [|[partial|] reason]; simpl;
    [apply Hwr|apply Hwr|reflexivity].
Qed.

End Respects.

(** Walks through a method body, leaving the primitive steps to [step]. *)
Ltac footprint step :=
  repeat match goal with
    | |- PreOrder _ => apply _
    | |- respects _ (ret _) => apply respects_ret
    | |- respects _ (throw _) => apply respects_throw
    | |- respects _ (await _) => apply respects_await
    | |- respects _ (existsSync _) => apply respects_existsSync
    | |- respects _ (md5File _ _) => apply respects_md5File
    | |- respects _ (json _) => apply respects_json
    | |- respects _ (arrival_order _) => apply respects_arrival_order
    | |- respects _ (bind _ _) => apply respects_bind
    | |- respects _ (try_catch _ _) => apply respects_try_catch
    | |- respects _ (filterM _ _) => apply respects_filterM
    | |- respects _ (mapM _ _) => apply respects_mapM
    | |- respects _ (emit _) => apply respects_emit
    | |- respects _ (fetch _ _ _) => apply respects_fetch
    | |- respects _ (pipe_and_wait _ _ _) => apply respects_pipe_and_wait
    | |- respects _ (if ?b then _ else _) => destruct b
    | |- respects _ (match ?x with _ => _ end) => destruct x
    | |- respects _ _ =>
        progress unfold _fetch, console_log, unbound, createReadStream,
          createWriteStream, uri_string, isPathExists, getFileInfo, getFolderInfo,
          createFolder, _deletePath, deleteFile, deleteFolder, _moveItem, moveItem,
          moveItems, uploadFile, downloadFile, downloadFolder, getNpmConfig,
          getEncryptedPassword
    | |- respects _ _ => progress cbv zeta
    | |- ∀ _, _ => intros ?
    | |- _ => step
    end.

Ltac keeps := reflexivity.

Ltac one_more :=
  eexists [_]; split; [reflexivity|]; apply Forall_singleton; reflexivity.

Ltac no_more :=
  exists []; split; [simpl; by rewrite app_nil_r|apply Forall_nil_2].

Section Footprints.

Variable E : Env.
Variable this : Client.

(** X1.  Nothing but a download writes to the local disk: every other
    method leaves the local files exactly as they were, however it ends. *)
Theorem only_downloads_write_files w :
  (∀ path src force, files (uploadFile E this path src force w).2 = files w)
  ∧ (∀ path, files (getFileInfo E this path w).2 = files w)
  ∧ (∀ path, files (getFolderInfo E this path w).2 = files w)
  ∧ (∀ path, files (isPathExists E this path w).2 = files w)
  ∧ (∀ path, files (createFolder E this path w).2 = files w)
  ∧ (∀ path, files (deleteFile E this path w).2 = files w)
  ∧ (∀ path, files (deleteFolder E this path w).2 = files w)
  ∧ (∀ src dst dry, files (moveItem E this src dst dry w).2 = files w)
  ∧ (∀ src cb dst dry, files (moveItems E this src cb dst dry w).2 = files w)
  ∧ (∀ login password, files (getEncryptedPassword E this login password w).2 = files w)
  ∧ (∀ repoKey scope, files (getNpmConfig E this repoKey scope w).2 = files w).
Proof.
  repeat split; intros;
    match goal with
    | |- files (?m w).2 = files w =>
        enough (respects same_files m) as Hm by exact (Hm w)
    end;
    footprint keeps.
Qed.

(** X2.  Only [deleteFile] and [deleteFolder] ever send a DELETE: no
    other method does, on any path of its code. *)
Theorem only_deletes_send_DELETE w :
  (∀ path src force, sent DELETE (trace (uploadFile E this path src force w).2)
                     = sent DELETE (trace w))
  ∧ (∀ path dest check, sent DELETE (trace (downloadFile E this path dest check w).2)
                        = sent DELETE (trace w))
  ∧ (∀ path dest kind, sent DELETE (trace (downloadFolder E this path dest kind w).2)
                       = sent DELETE (trace w))
  ∧ (∀ path, sent DELETE (trace (createFolder E this path w).2) = sent DELETE (trace w))
  ∧ (∀ src dst dry, sent DELETE (trace (moveItem E this src dst dry w).2)
                    = sent DELETE (trace w))
  ∧ (∀ src cb dst dry, sent DELETE (trace (moveItems E this src cb dst dry w).2)
                       = sent DELETE (trace w)).
Proof.
  assert (∀ w', grows_by not_a_delete w w' →
                sent DELETE (trace w') = sent DELETE (trace w)) as Hsame.
  { intros w' (evs & -> & Hevs). unfold sent, requests.
    rewrite omap_app, filter_app.
    rewrite <- (app_nil_r (filter _ (omap _ (trace w)))) at 2. f_equal.
    induction Hevs as [|ev evs Hev _ IH]; [done|].
    destruct ev as [r| | |]; simpl; try exact IH.
    rewrite filter_cons. simpl in Hev.
    apply negb_true_iff, bool_decide_eq_false in Hev.
    destruct (decide (req_method r = DELETE)); [done|exact IH]. }
  repeat split; intros; apply Hsame;
    match goal with
    | |- grows_by _ w (?m w).2 =>
        enough (respects (grows_by not_a_delete) m) as Hm by exact (Hm w)
    end;
    footprint ltac:(first [one_more | no_more]).
Qed.

(** X3.  The look-up methods only look: [getFileInfo], [getFolderInfo],
    [isPathExists] and [getEncryptedPassword] add to the trace nothing but
    console lines and GET or HEAD requests without a body. *)
Theorem lookups_only_query w :
  (∀ path, grows_by is_query w (getFileInfo E this path w).2)
  ∧ (∀ path, grows_by is_query w (getFolderInfo E this path w).2)
  ∧ (∀ path, grows_by is_query w (isPathExists E this path w).2)
  ∧ (∀ login password, grows_by is_query w (getEncryptedPassword E this login password w).2).
Proof.
  repeat split; intros;
    match goal with
    | |- grows_by _ w (?m w).2 =>
        enough (respects (grows_by is_query) m) as Hm by exact (Hm w)
    end;
    footprint ltac:(first [one_more | no_more]).
Qed.

End Footprints.

(** ** Uploads *)

Section Upload.

Variable E : Env.
Variable this : Client.

(** X4.  A local source that is not on disk stops the upload before
    anything happens: the call rejects naming the resolved path, and the
    world is untouched (no probe, no request, no stream). *)
Theorem uploadFile_missing_source path fileToUploadPath forceUpload w :
  Js.is_http_url fileToUploadPath = false →
  on_disk w (path_resolve E fileToUploadPath) = false →
  uploadFile E this path fileToUploadPath forceUpload w =
  (Rejected (Error ("The file to upload " +:+ path_resolve E fileToUploadPath
                      +:+ " does not exist")), w).
Proof.
  intros Hlocal Hmissing. unfold uploadFile. rewrite Hlocal. cbn [negb].
  unfold bind at 1, existsSync, bind at 1. by rewrite Hmissing.
Qed.

(** X5.  When the upload of a local file goes ahead (the flag is set, or
    the probe did not answer with a success status: a 404 as much as a
    500), one read stream is opened on the resolved source and one PUT
    carries it; a PUT answered outside 2xx rejects with the status in the
    message. *)
Theorem uploadFile_local_goes_ahead path fileToUploadPath forceUpload w probe res :
  let source := path_resolve E fileToUploadPath in
  let probed := record (call this (API.filePath path) (with_method HEAD)) w in
  Js.is_http_url fileToUploadPath = false →
  on_disk w source = true →
  respond E (trace w ++ [Log (base_url this +:+ API.filePath path)])
    (wire this (API.filePath path) (with_method HEAD)) = Responds probe →
  default false forceUpload = true ∨ ok probe = false →
  respond E (trace probed ++ [OpenRead source; Log (base_url this +:+ API.filePath path)])
    (wire this (API.filePath path) (put_with (LocalStream source))) = Responds res →
  let run := uploadFile E this path fileToUploadPath forceUpload w in
  run.1 = (if ok res
           then match res_json res with
                | Some doc => Resolved doc
                | None => Rejected (SyntaxError "invalid json response body")
                end
           else Rejected (Error ("HTTP Status Code from server was: "
                                   +:+ pretty (status res))))
  ∧ requests (trace run.2) =
      requests (trace w)
        ++ [wire this (API.filePath path) (with_method HEAD);
            wire this (API.filePath path) (put_with (LocalStream source))]
  ∧ opened (trace run.2) = opened (trace w) ++ [source].
Proof.
  intros source probed Hlocal Hdisk Hprobe Hgo Hres run. subst run.
  assert (uploadFile E this path fileToUploadPath forceUpload w =
          (if ok res
           then match res_json res with
                | Some doc => Resolved doc
                | None => Rejected (SyntaxError "invalid json response body")
                end
           else Rejected (Error ("HTTP Status Code from server was: "
                                   +:+ pretty (status res))),
           record (OpenRead source
                     :: call this (API.filePath path) (put_with (LocalStream source)))
             probed)) as ->.
  { unfold uploadFile. rewrite Hlocal. cbn [negb]. fold source.
    unfold bind at 1, existsSync, bind at 1. rewrite Hdisk.
    change (ret (negb true) w) with (Resolved false, w). cbv beta iota.
    rewrite isPathExists_run, Hprobe. fold probed.
    assert (ok probe && negb (default false forceUpload) = false) as ->.
    { destruct Hgo as [-> | ->]; [apply andb_false_r|done]. }
    unfold bind at 1, createReadStream, bind at 1, emit, ret.
    fold (put_with (LocalStream source)).
    rewrite fetch_await. rewrite record_record.
    replace (trace (record [OpenRead source] probed)
               ++ [Log (base_url this +:+ API.filePath path)])
      with (trace probed ++ [OpenRead source; Log (base_url this +:+ API.filePath path)])
      by (unfold record; cbn [trace]; by rewrite <- !app_assoc).
    rewrite Hres. destruct (ok res); [|done]. cbn [negb].
    unfold json. by destruct (res_json res). }
  cbn [fst snd]. split; [done|]. subst probed.
  rewrite !requests_record, !opened_record, <- !app_assoc. done.
Qed.

(** X6.  A source that looks like a URL is never looked for on the local
    disk and never opened: it is fetched with a plain GET that carries no
    header at all, the client's credentials included, and the pending
    response is the body of the PUT. *)
Theorem uploadFile_remote_source path fileToUploadPath forceUpload w probe :
  Js.is_http_url fileToUploadPath = true →
  respond E (trace w ++ [Log (base_url this +:+ API.filePath path)])
    (wire this (API.filePath path) (with_method HEAD)) = Responds probe →
  default false forceUpload = true ∨ ok probe = false →
  let run := uploadFile E this path fileToUploadPath forceUpload w in
  let download := to_request fileToUploadPath plain in
  requests (trace run.2) =
    requests (trace w)
      ++ [wire this (API.filePath path) (with_method HEAD);
          download;
          wire this (API.filePath path) (put_with (RemoteStream fileToUploadPath))]
  ∧ req_method download = GET
  ∧ req_headers download = []
  ∧ opened (trace run.2) = opened (trace w).
Proof.
  intros Hremote Hprobe Hgo run download. subst run download.
  assert ((uploadFile E this path fileToUploadPath forceUpload w).2 =
          record (call this (API.filePath path) (with_method HEAD)
                    ++ [Fetch (to_request fileToUploadPath plain)]
                    ++ call this (API.filePath path)
                         (put_with (RemoteStream fileToUploadPath))) w) as ->.
  { unfold uploadFile. rewrite Hremote. cbn [negb].
    unfold bind at 1.
    change (ret false w) with (Resolved false, w). cbv beta iota.
    rewrite isPathExists_run, Hprobe.
    assert (ok probe && negb (default false forceUpload) = false) as ->.
    { destruct Hgo as [-> | ->]; [apply andb_false_r|done]. }
    unfold bind at 1, bind at 1, fetch, ret. fold plain.
    fold (put_with (RemoteStream fileToUploadPath)).
    rewrite fetch_await, !record_record, <- !app_assoc.
    clear Hprobe.
    destruct (respond E _ _) as [res|]; [|done].
    destruct (ok res); cbn [negb]; [|done].
    unfold json. by destruct (res_json res). }
  rewrite !requests_record, !opened_record.
  split; [done|]. split; [done|]. split; [done|].
  apply app_nil_r.
Qed.

End Upload.

(** ** Downloads *)

Section DownloadEdges.

Variable E : Env.
Variable this : Client.

(** X7.  Without the directory that is to hold the destination file,
    neither kind of download does anything: both reject naming the missing
    directory before any request is sent, and the world is untouched. *)
Theorem downloads_need_the_directory path destinationFile check archiveType w :
  let folder := path_dirname E (path_resolve E destinationFile) in
  on_disk w folder = false →
  downloadFile E this path destinationFile check w =
    (Rejected (Error ("The destination folder " +:+ folder +:+ " does not exist.")), w)
  ∧ downloadFolder E this path destinationFile archiveType w =
    (Rejected (Error ("The destination folder " +:+ folder +:+ " does not exist.")), w).
Proof.
  intros folder Hmissing. unfold downloadFile, downloadFolder, bind, existsSync.
  fold folder. by rewrite Hmissing.
Qed.

(** X8.  A download without the integrity check replaces whatever was at
    the destination by the body received and leaves every other file
    alone; it sends the one GET and never asks for the file info. *)
Theorem downloadFile_unchecked_overwrites path destinationFile check w res :
  let dest := path_resolve E destinationFile in
  default false check = false →
  on_disk w (path_dirname E dest) = true →
  respond E (trace w ++ [Log (base_url this +:+ API.filePath path)])
    (wire this (API.filePath path) plain) = Responds res →
  ok res = true →
  pipe_outcome E (trace (receiving this (API.filePath path) dest w)) dest (res_text res)
    = Finished →
  let run := downloadFile E this path destinationFile check w in
  run.1 = Resolved tt
  ∧ files run.2 = <[dest := res_text res]> (files w)
  ∧ requests (trace run.2) = requests (trace w) ++ [wire this (API.filePath path) plain].
Proof.
  intros dest Hcheck Hdir Hres Hok Hpipe run. subst run.
  rewrite (downloadFile_received E this _ _ _ _ _ Hdir Hres Hok Hpipe), Hcheck.
  cbn [fst snd ret]. split; [done|]. split; [done|].
  change (trace (written (path_resolve E destinationFile) (res_text res)
                   (receiving this (API.filePath path) (path_resolve E destinationFile) w)))
    with (trace (receiving this (API.filePath path) (path_resolve E destinationFile) w)).
  unfold receiving. by rewrite requests_record.
Qed.

(** X9.  When the write stream reports an error the download rejects with
    it and stops there: what had been written stays in the file (nothing is
    rolled back), and no integrity check is attempted even if one was
    asked for. *)
Theorem downloadFile_stream_error_is_final path destinationFile check w res partial reason :
  let dest := path_resolve E destinationFile in
  on_disk w (path_dirname E dest) = true →
  respond E (trace w ++ [Log (base_url this +:+ API.filePath path)])
    (wire this (API.filePath path) plain) = Responds res →
  ok res = true →
  pipe_outcome E (trace (receiving this (API.filePath path) dest w)) dest (res_text res)
    = Errored partial reason →
  let run := downloadFile E this path destinationFile check w in
  run.1 = Rejected (StreamError reason)
  ∧ files run.2 = match partial with
                  | Some text => <[dest := text]> (files w)
                  | None => files w
                  end
  ∧ requests (trace run.2) = requests (trace w) ++ [wire this (API.filePath path) plain].
Proof.
  intros dest Hdir Hres Hok Hpipe run. subst run.
  assert (downloadFile E this path destinationFile check w =
          (Rejected (StreamError reason),
           match partial with
           | Some text => written dest text (receiving this (API.filePath path) dest w)
           | None => receiving this (API.filePath path) dest w
           end)) as ->.
  { unfold downloadFile. unfold bind at 1, existsSync. fold dest. rewrite Hdir.
    cbn [negb]. fold plain. rewrite fetch_await, Hres, Hok. cbn [negb].
    unfold bind at 1, createWriteStream, bind at 1, emit, ret.
    rewrite record_record. fold (receiving this (API.filePath path) dest w).
    unfold bind at 1, pipe_and_wait. rewrite Hpipe. by destruct partial. }
  cbn [fst snd]. split; [done|].
  destruct partial as [text|]; (split; [done|]);
    unfold receiving, written; cbn [trace]; fold (record (call this (API.filePath path) plain ++ [OpenWrite dest]) w);
    by rewrite requests_record.
Qed.

(** X10.  The status of a failed file-info request never reaches the
    caller: on any answer outside 2xx, [getFileInfo] and [getFolderInfo]
    reject with a ReferenceError (the error is built from [response],
    which is not the name of the response), having sent the one GET. *)
Theorem getFileInfo_loses_the_status path w res :
  respond E (trace w ++ [Log (base_url this +:+ API.getFileInfo path)])
    (wire this (API.getFileInfo path) plain) = Responds res →
  ok res = false →
  getFileInfo E this path w =
    (Rejected (ReferenceError "response"), record (call this (API.getFileInfo path) plain) w)
  ∧ (ends_with_sep path = true →
     getFolderInfo E this path w =
       (Rejected (ReferenceError "response"),
        record (call this (API.getFileInfo path) plain) w)).
Proof.
  intros Hres Hok.
  assert (getFileInfo E this path w =
          (Rejected (ReferenceError "response"),
           record (call this (API.getFileInfo path) plain) w)) as Hinfo
    by (rewrite getFileInfo_run; cbv zeta; by rewrite Hres, Hok).
  split; [exact Hinfo|]. intros Hdir.
  unfold getFolderInfo, asDirectory. by rewrite Hdir.
Qed.

End DownloadEdges.

(** ** Folders, deletions and probes *)

Section Folders.

Variable E : Env.
Variable this : Client.

(** X11.  The directory-oriented methods take a path with or without its
    trailing separator: on [p] and on [asDirectory p] they are the same
    computation (same requests, same outcome, in every world). *)
Theorem directory_methods_accept_both_forms p q filterCb dryrun :
  createFolder E this (asDirectory p) = createFolder E this p
  ∧ getFolderInfo E this (asDirectory p) = getFolderInfo E this p
  ∧ deleteFolder E this (asDirectory p) = deleteFolder E this p
  ∧ moveItems E this (asDirectory p) filterCb (asDirectory q) dryrun
    = moveItems E this p filterCb q dryrun.
Proof.
  unfold createFolder, getFolderInfo, deleteFolder, moveItems.
  by rewrite !asDirectory_idempotent.
Qed.

(** X12.  [deleteFile] sends one DELETE for the path exactly as given
    (no separator is added), resolves with the body on a 2xx answer and
    otherwise rejects with the status as its message; [deleteFolder] is
    [deleteFile] on the path in directory form. *)
Theorem deleteFile_outcome path w res :
  respond E (trace w ++ [Log (base_url this +:+ API.filePath path)])
    (wire this (API.filePath path) (with_method DELETE)) = Responds res →
  deleteFile E this path w =
    (if ok res then Resolved (res_text res) else Rejected (Error (pretty (status res))),
     record (call this (API.filePath path) (with_method DELETE)) w)
  ∧ sent DELETE (trace (deleteFile E this path w).2) =
      sent DELETE (trace w) ++ [wire this (API.filePath path) (with_method DELETE)]
  ∧ deleteFolder E this path = deleteFile E this (asDirectory path).
Proof.
  intros Hres.
  assert (deleteFile E this path w =
    (if ok res then Resolved (res_text res) else Rejected (Error (pretty (status res))),
     record (call this (API.filePath path) (with_method DELETE)) w)) as Hrun.
  { unfold deleteFile, _deletePath. rewrite fetch_await, Hres. by destruct (ok res). }
  split; [exact Hrun|]. split; [|done].
  rewrite Hrun. cbn [snd]. by rewrite sent_record, sent_call.
Qed.

(** X13.  [isPathExists] answers true exactly on a 2xx status and false on
    every other one, a 401 or a 500 as much as a 404: it never rejects
    because of a status. *)
Theorem isPathExists_reads_the_status path w res :
  respond E (trace w ++ [Log (base_url this +:+ API.filePath path)])
    (wire this (API.filePath path) (with_method HEAD)) = Responds res →
  (isPathExists E this path w).1 = Resolved (bool_decide (200 ≤ status res < 300)).
Proof.
  intros Hres. unfold isPathExists. rewrite fetch_await, Hres.
  cbn [fst ret]. f_equal. unfold ok.
  destruct (Nat.leb_spec 200 (status res)), (Nat.ltb_spec (status res) 300);
    simpl; symmetry;
    first [apply bool_decide_eq_true; lia | apply bool_decide_eq_false; lia].
Qed.

End Folders.

(** ** Credentials *)

Section Credentials.

Variable this : Client.

Lemma encode_not_empty s : s ≠ EmptyString → Base64.encode s ≠ EmptyString.
Proof. destruct s as [|a [|b [|c rest]]]; done. Qed.

Lemma headers_with_auth (c : Client) token route o :
  basicHttpAuth c = Some token →
  token ≠ EmptyString →
  headers o = ∅ →
  req_headers (wire c route o) = [("Authorization", "Basic " +:+ token)].
Proof.
  intros Hauth Htoken Ho. unfold wire, to_request, getRequestOptions. cbn [req_headers headers].
  rewrite Hauth, Ho. cbn [Js.truthy Js.show_opt default from_option id].
  rewrite bool_decide_eq_false_2 by done. cbn [negb].
  change (<["Authorization" := "Basic " +:+ token]> (∅ : gmap string string))
    with ({["Authorization" := "Basic " +:+ token]} : gmap string string).
  apply map_to_list_singleton.
Qed.

Lemma headers_without_auth (c : Client) route o :
  Js.truthy (basicHttpAuth c) = false →
  headers o = ∅ →
  req_headers (wire c route o) = [].
Proof.
  intros Hauth Ho. unfold wire, to_request, getRequestOptions. cbn [req_headers headers].
  rewrite Hauth, Ho. apply map_to_list_empty.
Qed.

(** X14.  After [setAuth(user, password)] with a non-empty password, every
    request built by [_fetch] carries exactly one header,
    [Authorization: Basic base64(user:password)], and goes to the same
    base URL as before. *)
Theorem setAuth_with_password user password route o :
  password ≠ EmptyString →
  headers o = ∅ →
  req_headers (wire (setAuth this user (Some password)) route o)
    = [("Authorization", "Basic " +:+ toBase64 (user +:+ ":" +:+ password))]
  ∧ req_url (wire (setAuth this user (Some password)) route o) = base_url this +:+ route.
Proof.
  intros Hpw Ho. split; [|done].
  apply headers_with_auth; [|apply encode_not_empty; by destruct user|exact Ho].
  unfold setAuth. cbn [basicHttpAuth Js.truthy Js.show_opt default from_option id].
  by rewrite bool_decide_eq_false_2.
Qed.

(** X15.  [setAuth] called without a password (or with an empty one)
    clears the credentials, whatever they were and whatever the first
    argument is: no request built afterwards carries a header.  The
    one-argument form announced in the method's comment (a ready-made
    basic-auth token) is therefore not honoured. *)
Theorem setAuth_without_password_clears token password route o :
  Js.truthy password = false →
  headers o = ∅ →
  req_headers (wire (setAuth this token password) route o) = [].
Proof.
  intros Hpw Ho. apply headers_without_auth; [|exact Ho].
  unfold setAuth. cbn [basicHttpAuth]. by rewrite Hpw.
Qed.

(** X16.  A client built from a URL and a client built from the same URL
    followed by a slash are the same client, so a route, which starts with
    a slash, never follows a slash; only one slash is removed. *)
Theorem constructor_drops_one_slash url :
  base_url (constructor (url +:+ "/")) = url
  ∧ (ends_with_sep url = false →
     constructor url = constructor (url +:+ "/") ∧ base_url (constructor url) = url).
Proof.
  assert (∀ u, Js.strip_trailing_slash (u +:+ "/") = u) as Hstrip.
  { induction u as [|a u IH]; [done|].
    rewrite app_cons. cbn [Js.strip_trailing_slash]. rewrite IH.
    destruct u; by rewrite ?app_cons, andb_false_r. }
  assert (∀ u, ends_with_sep u = false → Js.strip_trailing_slash u = u) as Hkeep.
  { induction u as [|a u IH]; [done|]. intros Hu.
    rewrite ends_with_sep_cons in Hu. apply bool_decide_eq_false in Hu.
    cbn [Js.strip_trailing_slash]. destruct u as [|b u].
    - cbn [last_of] in Hu. by rewrite bool_decide_eq_false_2.
    - rewrite andb_false_r. f_equal. apply IH.
      rewrite ends_with_sep_cons. by apply bool_decide_eq_false. }
  unfold constructor. cbn [base_url]. rewrite Hstrip.
  split; [done|]. intros Hurl. by rewrite (Hkeep _ Hurl).
Qed.

End Credentials.

Section NpmConfig.

Variable E : Env.
Variable this : Client.

(** X17.  [getNpmConfig] can only fail, and it fails before it has done
    anything: whatever its arguments and the server, it rejects with a
    ReferenceError on [options] and leaves the world as it was (no request
    is sent). *)
Theorem getNpmConfig_always_rejects repoKey scope w :
  getNpmConfig E this repoKey scope w = (Rejected (ReferenceError "options"), w).
Proof. reflexivity. Qed.

End NpmConfig.

(** ** Single moves *)

Section MoveEdges.

Variable E : Env.
Variable this : Client.

(** X18.  For a destination that does not end with the separator no
    folder is created: the move request is the only request sent, and the
    call resolves with the body on a 2xx answer and otherwise rejects with
    the status as its message. *)
Theorem moveItem_rename_sends_one_request srcPath dstPath dryrun w res :
  ends_with_sep dstPath = false →
  respond E (trace w ++ [Log (base_url this +:+ API.moveItem srcPath dstPath dryrun)])
    (wire this (API.moveItem srcPath dstPath dryrun) (with_method POST)) = Responds res →
  let run := moveItem E this srcPath dstPath dryrun w in
  run.1 = (if ok res then Resolved (res_text res)
           else Rejected (Error (pretty (status res))))
  ∧ requests (trace run.2) =
      requests (trace w)
        ++ [wire this (API.moveItem srcPath dstPath dryrun) (with_method POST)].
Proof.
  intros Hfile Hres run. subst run.
  rewrite moveItem_run, Hfile, _moveItem_run. cbv zeta. rewrite Hres.
  destruct (ok res); cbn [fst snd]; by rewrite requests_record.
Qed.

(** X19.  The folder creation that precedes a move into a directory can
    fail in any way (a rejected status, a network failure) without the
    caller ever seeing it: the result of the call is the result of the
    move request alone. *)
Theorem moveItem_creation_failure_is_swallowed srcPath dstPath dryrun w res :
  ends_with_sep dstPath = true →
  respond E (trace w ++ call this (API.filePath dstPath) (with_method PUT)
               ++ [Log (base_url this +:+ API.moveItem srcPath dstPath dryrun)])
    (wire this (API.moveItem srcPath dstPath dryrun) (with_method POST)) = Responds res →
  (moveItem E this srcPath dstPath dryrun w).1 =
    (if ok res then Resolved (res_text res)
     else Rejected (Error (pretty (status res)))).
Proof.
  intros Hdir Hres.
  destruct (moveItem_directory_protocol E this srcPath dstPath dryrun w Hdir) as [_ Hrun].
  cbv zeta in Hrun. by rewrite Hrun, Hres.
Qed.

End MoveEdges.

(** ** Base names *)

Section BaseName.

Lemma lastIndexOf_from_free c s i found :
  Url.free_of c s = true → Js.lastIndexOf_from c s i found = found.
Proof.
  revert i found. induction s as [|a s IH]; intros i found Hfree; [done|].
  simpl in Hfree. apply andb_true_iff in Hfree as [Ha Hs].
  apply negb_true_iff in Ha. simpl. rewrite Ha. by apply IH.
Qed.

Lemma lastIndexOf_from_app c dir name i found :
  Url.free_of c name = true →
  Js.lastIndexOf_from c (dir +:+ String c name) i found
    = (i + Z.of_nat (String.length dir))%Z.
Proof.
  intros Hfree. revert i found. induction dir as [|a dir IH]; intros i found.
  - rewrite app_empty_l. simpl. rewrite bool_decide_eq_true_2 by done.
    rewrite lastIndexOf_from_free by done. lia.
  - rewrite app_cons. cbn [Js.lastIndexOf_from String.length]. rewrite IH. lia.
Qed.

Lemma drop_app dir rest : Js.drop (String.length dir) (dir +:+ rest) = rest.
Proof. induction dir as [|a dir IH]; [done|]. by rewrite app_cons. Qed.

(** X20.  The name handed to the filter callback is the entry's [uri]
    after its last separator: for [dir/name] with no separator in [name]
    it is [name], and a [uri] without any separator is handed over whole. *)
Theorem baseName_is_last_segment dir name :
  Url.free_of "/" name = true →
  baseName (dir +:+ "/" +:+ name) = name ∧ baseName name = name.
Proof.
  intros Hfree. unfold baseName, Js.substring, Js.lastIndexOf. split.
  - change (dir +:+ "/" +:+ name) with (dir +:+ String "/" name).
    rewrite lastIndexOf_from_app by done.
    replace (Z.to_nat (0 + Z.of_nat (String.length dir) + 1))
      with (String.length (dir +:+ "/")) by (rewrite length_app_sep; lia).
    change (dir +:+ String "/" name) with (dir +:+ "/" +:+ name).
    rewrite <- append_assoc. apply drop_app.
  - by rewrite lastIndexOf_from_free.
Qed.

End BaseName.

(** ** The encrypted password *)

Section EncryptedPassword.

Variable E : Env.
Variable this : Client.

(** X23.  [getEncryptedPassword] sends neither of its arguments: the
    request is a GET without a body on a fixed route, the same for every
    login and password, and a failure is reported by a fixed message that
    does not tell the status. *)
Theorem getEncryptedPassword_ignores_its_arguments login password w res :
  respond E (trace w ++ [Log (base_url this +:+ API.encryptedPassword)])
    (wire this API.encryptedPassword plain) = Responds res →
  getEncryptedPassword E this login password w =
    (if ok res then Resolved (res_text res)
     else Rejected (Error "Could not get encrypted password"),
     record (call this API.encryptedPassword plain) w)
  ∧ req_body (wire this API.encryptedPassword plain) = None
  ∧ (∀ login' password',
       getEncryptedPassword E this login' password' = getEncryptedPassword E this login password).
Proof.
  intros Hres. split; [|done].
  unfold getEncryptedPassword. fold plain. rewrite fetch_await, Hres.
  by destruct (ok res).
Qed.

End EncryptedPassword.

(** ** These properties at work on the sample installation *)

Section More_runs_on_sample.

Import Sample.

Lemma uploadFile_missing_source_witness :
  uploadFile empty client "repo/a.bin" "/tmp/nothing.bin" None disk =
  (Rejected (Error ("The file to upload " +:+ path_resolve empty "/tmp/nothing.bin"
                      +:+ " does not exist")), disk).
Proof.
  apply (uploadFile_missing_source empty client "repo/a.bin" "/tmp/nothing.bin" None disk);
    reflexivity.
Defined.

Lemma uploadFile_local_goes_ahead_witness :
  (uploadFile accepting client "repo/new.bin" "/tmp/old.bin" None disk).1
    = Resolved {| children := None; checksums := None |}
  ∧ requests (trace (uploadFile accepting client "repo/new.bin" "/tmp/old.bin" None disk).2)
    = requests (trace disk)
        ++ [wire client (API.filePath "repo/new.bin") (with_method HEAD);
            wire client (API.filePath "repo/new.bin") (put_with (LocalStream "/tmp/old.bin"))]
  ∧ opened (trace (uploadFile accepting client "repo/new.bin" "/tmp/old.bin" None disk).2)
    = opened (trace disk) ++ ["/tmp/old.bin"].
Proof.
  apply (uploadFile_local_goes_ahead accepting client "repo/new.bin" "/tmp/old.bin" None disk
           (reply 404 "Not Found")
           {| status := 201; res_text := "";
              res_json := Some {| children := None; checksums := None |} |});
    [reflexivity|reflexivity|reflexivity|right; reflexivity|reflexivity].
Defined.

Lemma uploadFile_remote_source_witness :
  requests (trace (uploadFile accepting (setAuth client "admin" (Some "secret"))
                     "repo/new.bin" "https://example.org/a.bin" None disk).2)
    = requests (trace disk)
        ++ [wire (setAuth client "admin" (Some "secret")) (API.filePath "repo/new.bin")
              (with_method HEAD);
            to_request "https://example.org/a.bin" plain;
            wire (setAuth client "admin" (Some "secret")) (API.filePath "repo/new.bin")
              (put_with (RemoteStream "https://example.org/a.bin"))]
  ∧ req_method (to_request "https://example.org/a.bin" plain) = GET
  ∧ req_headers (to_request "https://example.org/a.bin" plain) = []
  ∧ opened (trace (uploadFile accepting (setAuth client "admin" (Some "secret"))
                     "repo/new.bin" "https://example.org/a.bin" None disk).2)
    = opened (trace disk).
Proof.
  apply (uploadFile_remote_source accepting (setAuth client "admin" (Some "secret"))
           "repo/new.bin" "https://example.org/a.bin" None disk (reply 404 "Not Found"));
    [reflexivity|reflexivity|right; reflexivity].
Defined.

Lemma downloads_need_the_directory_witness :
  downloadFile serving client "repo/a.bin" "/nowhere/a.bin" None disk =
    (Rejected (Error ("The destination folder "
                        +:+ path_dirname serving (path_resolve serving "/nowhere/a.bin")
                        +:+ " does not exist.")), disk)
  ∧ downloadFolder serving client "repo/a.bin" "/nowhere/a.bin" None disk =
    (Rejected (Error ("The destination folder "
                        +:+ path_dirname serving (path_resolve serving "/nowhere/a.bin")
                        +:+ " does not exist.")), disk).
Proof.
  apply (downloads_need_the_directory serving client "repo/a.bin" "/nowhere/a.bin"
           None None disk); reflexivity.
Defined.

Lemma downloadFile_unchecked_overwrites_witness :
  (downloadFile serving client "repo/a.bin" "/tmp/old.bin" None disk).1 = Resolved tt
  ∧ files (downloadFile serving client "repo/a.bin" "/tmp/old.bin" None disk).2
    = <[path_resolve serving "/tmp/old.bin" := "payload"]> (files disk)
  ∧ requests (trace (downloadFile serving client "repo/a.bin" "/tmp/old.bin" None disk).2)
    = requests (trace disk) ++ [wire client (API.filePath "repo/a.bin") plain].
Proof.
  apply (downloadFile_unchecked_overwrites serving client "repo/a.bin" "/tmp/old.bin" None
           disk (reply 200 "payload")); reflexivity.
Defined.

Lemma downloadFile_stream_error_is_final_witness :
  (downloadFile breaking client "repo/a.bin" "/tmp/a.bin" (Some true) disk).1
    = Rejected (StreamError "EIO")
  ∧ files (downloadFile breaking client "repo/a.bin" "/tmp/a.bin" (Some true) disk).2
    = <[path_resolve breaking "/tmp/a.bin" := "pay"]> (files disk)
  ∧ requests (trace (downloadFile breaking client "repo/a.bin" "/tmp/a.bin" (Some true) disk).2)
    = requests (trace disk) ++ [wire client (API.filePath "repo/a.bin") plain].
Proof.
  apply (downloadFile_stream_error_is_final breaking client "repo/a.bin" "/tmp/a.bin"
           (Some true) disk (reply 200 "payload") (Some "pay") "EIO"); reflexivity.
Defined.

Lemma getFileInfo_loses_the_status_witness :
  getFileInfo empty client "repo/missing.bin" disk =
    (Rejected (ReferenceError "response"),
     record (call client (API.getFileInfo "repo/missing.bin") plain) disk)
  ∧ (ends_with_sep "repo/missing.bin" = true →
     getFolderInfo empty client "repo/missing.bin" disk =
       (Rejected (ReferenceError "response"),
        record (call client (API.getFileInfo "repo/missing.bin") plain) disk)).
Proof.
  apply (getFileInfo_loses_the_status empty client "repo/missing.bin" disk
           (reply 404 "Not Found")); reflexivity.
Defined.

Lemma deleteFile_outcome_witness :
  deleteFile empty client "repo/dir" disk =
    (Rejected (Error (pretty 404)),
     record (call client (API.filePath "repo/dir") (with_method DELETE)) disk)
  ∧ sent DELETE (trace (deleteFile empty client "repo/dir" disk).2) =
      sent DELETE (trace disk) ++ [wire client (API.filePath "repo/dir") (with_method DELETE)]
  ∧ deleteFolder empty client "repo/dir" = deleteFile empty client (asDirectory "repo/dir").
Proof.
  apply (deleteFile_outcome empty client "repo/dir" disk (reply 404 "Not Found")).
  reflexivity.
Defined.

Lemma isPathExists_reads_the_status_witness :
  (isPathExists empty client "repo/a.bin" disk).1 = Resolved (bool_decide (200 ≤ 404 < 300)).
Proof.
  apply (isPathExists_reads_the_status empty client "repo/a.bin" disk (reply 404 "Not Found")).
  reflexivity.
Defined.

Lemma setAuth_with_password_witness :
  req_headers (wire (setAuth client "admin" (Some "secret")) (API.filePath "repo/a.bin") plain)
    = [("Authorization", "Basic " +:+ toBase64 ("admin" +:+ ":" +:+ "secret"))]
  ∧ req_url (wire (setAuth client "admin" (Some "secret")) (API.filePath "repo/a.bin") plain)
    = base_url client +:+ API.filePath "repo/a.bin".
Proof.
  apply (setAuth_with_password client "admin" "secret" (API.filePath "repo/a.bin") plain);
    [discriminate|reflexivity].
Defined.

Lemma setAuth_without_password_clears_witness :
  req_headers (wire (setAuth (setAuth client "admin" (Some "secret")) "YWRtaW46c2VjcmV0" None)
                 (API.filePath "repo/a.bin") plain) = [].
Proof.
  apply (setAuth_without_password_clears (setAuth client "admin" (Some "secret"))
           "YWRtaW46c2VjcmV0" None (API.filePath "repo/a.bin") plain); reflexivity.
Defined.

Lemma constructor_drops_one_slash_witness :
  constructor root = constructor (root +:+ "/") ∧ base_url (constructor root) = root.
Proof.
  destruct (constructor_drops_one_slash root) as [_ Hsame]. apply Hsame. reflexivity.
Defined.

Lemma moveItem_rename_sends_one_request_witness :
  (moveItem empty client "repo/a.txt" "repo/b.txt" None disk).1
    = Rejected (Error (pretty 404))
  ∧ requests (trace (moveItem empty client "repo/a.txt" "repo/b.txt" None disk).2)
    = requests (trace disk)
        ++ [wire client (API.moveItem "repo/a.txt" "repo/b.txt" None) (with_method POST)].
Proof.
  apply (moveItem_rename_sends_one_request empty client "repo/a.txt" "repo/b.txt" None disk
           (reply 404 "Not Found")); reflexivity.
Defined.

(** The creation of repo/dir/ is answered 404, the move 200. *)
Lemma moveItem_creation_failure_is_swallowed_witness :
  (moveItem accepting client "repo/a.txt" "repo/dir/" None disk).1 = Resolved "moved".
Proof.
  apply (moveItem_creation_failure_is_swallowed accepting client "repo/a.txt" "repo/dir/"
           None disk (reply 200 "moved")); reflexivity.
Defined.

Lemma baseName_is_last_segment_witness :
  baseName ("libs/release" +:+ "/" +:+ "a.zip") = "a.zip" ∧ baseName "a.zip" = "a.zip".
Proof. apply (baseName_is_last_segment "libs/release" "a.zip"). reflexivity. Defined.

Lemma moveItems_without_children_field_witness :
  (moveItems not_a_folder client "src" None "dst" None disk).1
    = Rejected (Error ("No files in " +:+ asDirectory "src"))
  ∧ requests (trace (moveItems not_a_folder client "src" None "dst" None disk).2)
    = requests (trace disk) ++ [wire client (API.getFileInfo (asDirectory "src")) plain].
Proof.
  apply (moveItems_without_children_field not_a_folder client "src" None "dst" None disk
           (fileinfo "md5:payload")
           {| children := None; checksums := Some {| md5 := Some "md5:payload" |} |});
    reflexivity.
Defined.

Lemma downloadFile_digests_agree_witness :
  (downloadFile serving client "repo/a.bin" "/tmp/a.bin" (Some true) disk).1 = Resolved tt
  ∧ files (downloadFile serving client "repo/a.bin" "/tmp/a.bin" (Some true) disk).2
      !! path_resolve serving "/tmp/a.bin" = Some "payload".
Proof.
  apply (downloadFile_digests_agree serving client "repo/a.bin" "/tmp/a.bin" disk
           (reply 200 "payload") (fileinfo "md5:payload")
           {| children := None; checksums := Some {| md5 := Some "md5:payload" |} |}
           {| md5 := Some "md5:payload" |}); reflexivity.
Defined.

Lemma getEncryptedPassword_ignores_its_arguments_witness :
  getEncryptedPassword empty client "admin" "secret" disk =
    (Rejected (Error "Could not get encrypted password"),
     record (call client API.encryptedPassword plain) disk)
  ∧ req_body (wire client API.encryptedPassword plain) = None
  ∧ (∀ login' password',
       getEncryptedPassword empty client login' password'
       = getEncryptedPassword empty client "admin" "secret").
Proof.
  apply (getEncryptedPassword_ignores_its_arguments empty client "admin" "secret" disk
           (reply 404 "Not Found")). reflexivity.
Defined.

End More_runs_on_sample.
